(** * Command runner of tf-manage2 (package framework)

    Shallow embedding of the process runner and status printer of the
    [framework] package: [RunCmd], [execSystemCommand], [parseCommand],
    [execCommand] (pass-through and pipe-capture modes) and [parseStatus],
    together with the helpers of printer.go they use.

    Modelling conventions.
    - A Go [string] is modelled by the list of its Unicode code points
      (runes), i.e. we consider well-formed UTF-8 strings.  Loops of the
      source that walk a string byte by byte and only compare bytes with
      ASCII characters ([parseCommand]) behave the same on runes, because
      every byte of a multi-byte UTF-8 sequence is >= 0x80.  Go's [len]
      (a byte count) is [golen], the sum of the UTF-8 widths of the runes.
    - The operating system is a [host]: the executable name
      ([os.Args[0]] after [filepath.Base]) and, for every program and
      argument vector, the behaviour of the process that [exec.Command]
      would create ([process]).
    - [os.Exit] is an outcome of [RunCmd] ([Exited]); console output of
      the runner itself is a list of [event]s.  The relay of the child's
      own output to the console (printer goroutine) and [Debug] lines are
      not modelled; only what reaches the [CmdResult] is. *)

From Stdlib Require Import ZArith List String Ascii Bool Lia.
Import ListNotations.
Open Scope Z_scope.

(** ** Go strings *)

Definition gostring := list Z.

(** ASCII string literal to a Go string. *)
Definition s2g (s : string) : gostring :=
  map (fun a => Z.of_nat (nat_of_ascii a)) (list_ascii_of_string s).

(** [utf8.RuneLen] for a valid rune. *)
Definition utf8_width (r : Z) : Z :=
  if r <? 128 then 1 else if r <? 2048 then 2 else if r <? 65536 then 3 else 4.

(** Go's [len] on a string: its length in bytes. *)
Definition golen (s : gostring) : Z := fold_right (fun r n => utf8_width r + n) 0 s.

(** [unicode.IsSpace]. *)
Definition IsSpace (r : Z) : bool :=
  if r <=? 255 then
    (r =? 9) || (r =? 10) || (r =? 11) || (r =? 12) || (r =? 13) || (r =? 32)
    || (r =? 133) || (r =? 160)
  else
    (r =? 5760) || ((8192 <=? r) && (r <=? 8202)) || (r =? 8232) || (r =? 8233)
    || (r =? 8239) || (r =? 8287) || (r =? 12288).

Fixpoint TrimLeftSpace (s : gostring) : gostring :=
  match s with
  | [] => []
  | r :: s' => if IsSpace r then TrimLeftSpace s' else s
  end.

(** [strings.TrimSpace]: drop leading and trailing white space. *)
Definition TrimSpace (s : gostring) : gostring :=
  rev (TrimLeftSpace (rev (TrimLeftSpace s))).

Definition is_empty (s : gostring) : bool :=
  match s with [] => true | _ => false end.

(** ** Flags and results *)

Record CmdFlags := mkCmdFlags {
  Strict : bool;
  PrintCmd : bool;
  DecorateOutput : bool;
  PrintOutput : bool;
  PrintMessage : bool;
  PrintStatus : bool;
  PrintOutcome : bool;
  StrictMessage : gostring;
  NoStrictMessage : gostring;
  ValidExitCodes : list Z
}.

Definition DefaultCmdFlags : CmdFlags := {|
  Strict := false;
  PrintCmd := false;
  DecorateOutput := false;
  PrintOutput := true;
  PrintMessage := true;
  PrintStatus := true;
  PrintOutcome := false;
  StrictMessage := s2g "aborting...";
  NoStrictMessage := s2g "continuing...";
  ValidExitCodes := [0]
|}.

Record CmdResult := mkCmdResult {
  ExitCode : Z;
  Success : bool;
  Output : gostring;
  Error : gostring
}.

(** [&CmdResult{ExitCode: 1, Success: false, Error: e}]. *)
Definition launchFailure (e : gostring) : CmdResult :=
  {| ExitCode := 1; Success := false; Output := []; Error := e |}.

(** ** parseCommand *)

Record pstate := mkPstate {
  parts : list gostring;
  current : gostring;
  inQuotes : bool;
  quoteChar : Z
}.

Definition pinit : pstate :=
  {| parts := []; current := []; inQuotes := false; quoteChar := 0 |}.

(** One iteration of the loop over [cmdStr]. *)
Definition pc_step (st : pstate) (char : Z) : pstate :=
  if negb (inQuotes st) && ((char =? 34) || (char =? 39)) then
    {| parts := parts st; current := current st; inQuotes := true; quoteChar := char |}
  else if inQuotes st && (char =? quoteChar st) then
    {| parts := parts st; current := current st; inQuotes := false; quoteChar := 0 |}
  else if negb (inQuotes st) && (char =? 32) then
    if negb (is_empty (current st)) then
      {| parts := parts st ++ [current st]; current := [];
         inQuotes := inQuotes st; quoteChar := quoteChar st |}
    else st
  else
    {| parts := parts st; current := current st ++ [char];
       inQuotes := inQuotes st; quoteChar := quoteChar st |}.

(** What follows the loop: flush [current], split off the program. *)
Definition parseCommand_finish (st : pstate) : gostring * list gostring :=
  let ps := if negb (is_empty (current st)) then parts st ++ [current st] else parts st in
  match ps with
  | [] => ([], [])
  | p :: args => (p, args)
  end.

Definition parseCommand (cmdStr : gostring) : gostring * list gostring :=
  let cmdStr := TrimSpace cmdStr in
  if is_empty cmdStr then ([], [])
  else parseCommand_finish (fold_left pc_step cmdStr pinit).

(** ** Processes and the host *)

(** The error returned by [cmd.Wait()]. *)
Inductive wait_result :=
| WaitNil                    (* exit status 0 *)
| WaitExitError (code : Z)   (* *exec.ExitError; [code] = ExitError.ExitCode() *)
| WaitOtherError.            (* any other error *)

(** What the OS does for one [exec.Cmd]: failures of [os.Pipe] and of
    [Start] (e.g. executable not found), the bytes the process writes on
    its standard output and error, and how [Wait] returns. *)
Record process := mkProcess {
  stdout_pipe_err : option gostring;
  stderr_pipe_err : option gostring;
  start_err : option gostring;
  stdout_data : gostring;
  stderr_data : gostring;
  (** [cmd.Wait()] closes the read ends of the pipes once the process has
      exited; these count the runes of each stream the reading goroutine
      has taken from its pipe by then (scheduling decides it). *)
  stdout_read : nat;
  stderr_read : nat;
  wait_res : wait_result
}.

Record host := mkHost {
  entrypoint_script : gostring;
  os_exec : gostring -> list gostring -> process
}.

(** Where a standard stream of the child is connected. *)
Inductive stream := HostStdin | HostStdout | HostStderr | PipeToParent.

(** The fields of [exec.Cmd] the runner touches; [Started] is
    [cmd.Process != nil]. *)
Record Cmd := mkCmd {
  Path : gostring;
  Args : list gostring;
  Stdin : option stream;
  Stdout : option stream;
  Stderr : option stream;
  Started : bool
}.

(** [exec.Command(program, args...)]. *)
Definition Command (program : gostring) (args : list gostring) : Cmd :=
  {| Path := program; Args := program :: args; Stdin := None; Stdout := None;
     Stderr := None; Started := false |}.

Definition proc_of (h : host) (c : Cmd) : process := os_exec h (Path c) (tl (Args c)).

Definition set_stdio (c : Cmd) (i o e : option stream) : Cmd :=
  {| Path := Path c; Args := Args c; Stdin := i; Stdout := o; Stderr := e;
     Started := Started c |}.

Definition set_started (c : Cmd) : Cmd :=
  {| Path := Path c; Args := Args c; Stdin := Stdin c; Stdout := Stdout c;
     Stderr := Stderr c; Started := true |}.

(** [cmd.StdoutPipe()]. *)
Definition StdoutPipe (p : process) (c : Cmd) : Cmd * option gostring :=
  match Stdout c with
  | Some _ => (c, Some (s2g "exec: Stdout already set"))
  | None =>
      match stdout_pipe_err p with
      | Some e => (c, Some e)
      | None => (set_stdio c (Stdin c) (Some PipeToParent) (Stderr c), None)
      end
  end.

(** [cmd.StderrPipe()]. *)
Definition StderrPipe (p : process) (c : Cmd) : Cmd * option gostring :=
  match Stderr c with
  | Some _ => (c, Some (s2g "exec: Stderr already set"))
  | None =>
      match stderr_pipe_err p with
      | Some e => (c, Some e)
      | None => (set_stdio c (Stdin c) (Stdout c) (Some PipeToParent), None)
      end
  end.

(** [cmd.Start()]. *)
Definition Start (p : process) (c : Cmd) : Cmd * option gostring :=
  match start_err p with
  | Some e => (c, Some e)
  | None => (set_started c, None)
  end.

(** ** bufio.Scanner with ScanLines *)

(** [bufio.MaxScanTokenSize]: a line that does not fit in the 64 KiB
    buffer makes [Scan] fail with [ErrTooLong]. *)
Definition MaxScanTokenSize : Z := 65536.

(** [dropCR]: remove one trailing carriage return. *)
Definition dropCR (l : gostring) : gostring :=
  match rev l with
  | r :: l' => if r =? 13 then rev l' else l
  | [] => l
  end.

(** The tokens [scanner.Scan()]/[scanner.Text()] yield on [data];
    [cur] is the part of the current line read so far.  At the end of
    the data (EOF, or the error of a closed pipe) the rest is a final
    token when non-empty. *)
Fixpoint scanLines_from (cur : gostring) (data : gostring) : list gostring :=
  match data with
  | [] =>
      if is_empty cur then []
      else if MaxScanTokenSize <=? golen cur then [] else [dropCR cur]
  | c :: data' =>
      if c =? 10 then
        if MaxScanTokenSize <=? golen cur then []
        else dropCR cur :: scanLines_from [] data'
      else scanLines_from (cur ++ [c]) data'
  end.

Definition scanLines (data : gostring) : list gostring := scanLines_from [] data.

(** A pump goroutine: [buf.WriteString(line + "\n")] for every token. *)
Definition pump (data : gostring) : gostring :=
  List.concat (map (fun line => line ++ [10]) (scanLines data)).

(** ** execCommand and execSystemCommand *)

Definition exitCodeOf (err : wait_result) : Z :=
  match err with
  | WaitNil => 0
  | WaitExitError code => code
  | WaitOtherError => 1
  end.

(** The [for _, validCode := range flags.ValidExitCodes] loop. *)
Fixpoint validCode_loop (exitCode : Z) (codes : list Z) : bool :=
  match codes with
  | [] => false
  | validCode :: codes' => if exitCode =? validCode then true else validCode_loop exitCode codes'
  end.

Definition execCommand (h : host) (cmd : Cmd) (flags : CmdFlags) : Cmd * CmdResult :=
  let p := proc_of h cmd in
  let isInteractive := negb (DecorateOutput flags) in
  if isInteractive then
    let cmd := set_stdio cmd (Some HostStdin) (Some HostStdout) (Some HostStderr) in
    match Start p cmd with
    | (cmd, Some err) => (cmd, launchFailure err)
    | (cmd, None) =>
        let exitCode := exitCodeOf (wait_res p) in
        let success := validCode_loop exitCode (ValidExitCodes flags) in
        (cmd, {| ExitCode := exitCode; Success := success; Output := []; Error := [] |})
    end
  else
    match StdoutPipe p cmd with
    | (cmd, Some err) => (cmd, launchFailure err)
    | (cmd, None) =>
      match StderrPipe p cmd with
      | (cmd, Some err) => (cmd, launchFailure err)
      | (cmd, None) =>
        match Start p cmd with
        | (cmd, Some err) => (cmd, launchFailure err)
        | (cmd, None) =>
            let output := pump (firstn (stdout_read p) (stdout_data p)) in
            let errorOutput := pump (firstn (stderr_read p) (stderr_data p)) in
            let exitCode := exitCodeOf (wait_res p) in
            let success := validCode_loop exitCode (ValidExitCodes flags) in
            (cmd, {| ExitCode := exitCode; Success := success; Output := output;
                     Error := errorOutput |})
        end
      end
    end.

(** Returns the [exec.Cmd] built (if any) and the result. *)
Definition execSystemCommand (h : host) (command : gostring) (flags : CmdFlags)
  : option Cmd * CmdResult :=
  if is_empty (TrimSpace command) then (None, launchFailure (s2g "empty command"))
  else
    let '(program, args) := parseCommand command in
    if is_empty program then (None, launchFailure (s2g "empty command"))
    else
      let '(cmd, result) := execCommand h (Command program args) flags in
      (Some cmd, result).

(** ** printer.go *)

Definition ESC : Z := 27.
Definition Reset : gostring := [ESC] ++ s2g "[0m".
Definition Red : gostring := [ESC] ++ s2g "[31m".
Definition Green : gostring := [ESC] ++ s2g "[32m".
Definition Blue : gostring := [ESC] ++ s2g "[34m".
Definition Magenta : gostring := [ESC] ++ s2g "[35m".
Definition Gray : gostring := [ESC] ++ s2g "[30;1m".

(** U+2713 and U+2717. *)
Definition CheckMark : gostring := [10003].
Definition CrossMark : gostring := [10007].

Definition AddEmphasisBlue (text : gostring) : gostring := Blue ++ text ++ Reset.
Definition AddEmphasisRed (text : gostring) : gostring := Red ++ text ++ Reset.
Definition AddEmphasisGreen (text : gostring) : gostring := Green ++ text ++ Reset.
Definition AddEmphasisMagenta (text : gostring) : gostring := Magenta ++ text ++ Reset.
Definition AddEmphasisGray (text : gostring) : gostring := Gray ++ text ++ Reset.

(** [filepath.Base(os.Args[0])] ("tf" when [os.Args] is empty), as the
    host provides it. *)
Definition GetEntrypointScript (h : host) : gostring := entrypoint_script h.

(** A line the runner itself writes to stdout or stderr. *)
Inductive event := OutLine (s : gostring) | ErrLine (s : gostring).

(** [Info] and [Error]: the coloured "[name]" prefix, a space, the
    message (the executable name contains no [%] verb). *)
Definition Info (h : host) (message : gostring) : event :=
  ErrLine (AddEmphasisGray (s2g "[" ++ GetEntrypointScript h ++ s2g "]") ++ s2g " " ++ message).

Definition ErrorMsg (h : host) (message : gostring) : event :=
  ErrLine (AddEmphasisRed (s2g "[" ++ GetEntrypointScript h ++ s2g "]") ++ s2g " " ++ message).

(** [stripAnsiCodes]: [regexp.ReplaceAllString] with [\x1b\[[0-9;]*m]
    and the empty string, scanning left to right.  The state records the prefix of a
    possible match read so far; when the match fails the prefix is kept
    and scanning resumes after the ESC (the rest of the prefix holds no
    ESC, so it is copied as is). *)
Inductive astate := ANormal | AEsc | ASeq (pending : gostring).

Definition ansi_param (c : Z) : bool := ((48 <=? c) && (c <=? 57)) || (c =? 59).

Definition astep_normal (c : Z) : gostring * astate :=
  if c =? ESC then ([], AEsc) else ([c], ANormal).

Definition astep (st : astate) (c : Z) : gostring * astate :=
  match st with
  | ANormal => astep_normal c
  | AEsc =>
      if c =? 91 then ([], ASeq [ESC; 91])
      else let '(o, st') := astep_normal c in (ESC :: o, st')
  | ASeq pend =>
      if ansi_param c then ([], ASeq (pend ++ [c]))
      else if c =? 109 then ([], ANormal)
      else let '(o, st') := astep_normal c in (pend ++ o, st')
  end.

Definition apending (st : astate) : gostring :=
  match st with ANormal => [] | AEsc => [ESC] | ASeq p => p end.

Fixpoint strip_from (st : astate) (s : gostring) : gostring :=
  match s with
  | [] => apending st
  | c :: s' => fst (astep st c) ++ strip_from (snd (astep st c)) s'
  end.

Definition stripAnsiCodes (str : gostring) : gostring := strip_from ANormal str.

Definition getVisualLength (str : gostring) : Z := golen (stripAnsiCodes str).

(** ** parseStatus *)

(** [fmt.Sprintf] of the empty string with verb [%*s] and width [w], for 1 <= w. *)
Definition spaces (w : Z) : gostring := repeat 32 (Z.to_nat w).

Definition statusIndicator (result : CmdResult) : gostring :=
  if Success result then s2g "[ " ++ AddEmphasisGreen CheckMark ++ s2g " ]"
  else s2g "[ " ++ AddEmphasisRed CrossMark ++ s2g " ]".

Definition outcomeMessage (result : CmdResult) (flags : CmdFlags) : gostring :=
  if Success result then s2g "(done)"
  else if Strict flags then s2g "(" ++ AddEmphasisRed (StrictMessage flags) ++ s2g ")"
  else s2g "(" ++ AddEmphasisRed (NoStrictMessage flags) ++ s2g ")".

Definition totalWidth : Z := 120.

(** The line [parseStatus] prints ([format]). *)
Definition statusLine (h : host) (message : gostring) (result : CmdResult)
  (flags : CmdFlags) : gostring :=
  let entrypoint := s2g "[" ++ GetEntrypointScript h ++ s2g "]" in
  let entrypointWithColor := AddEmphasisGray entrypoint in
  let messageVisualLength := getVisualLength message in
  let entrypointVisualLength := getVisualLength entrypoint in
  let statusVisualLength := 5 in
  let paddingWidth :=
    totalWidth - entrypointVisualLength - 1 - messageVisualLength - 1 - statusVisualLength in
  let paddingWidth := if paddingWidth <? 1 then 1 else paddingWidth in
  let format := entrypointWithColor ++ s2g " " ++ message ++ spaces paddingWidth
                ++ s2g " " ++ statusIndicator result in
  if PrintOutcome flags && negb (is_empty (outcomeMessage result flags))
  then format ++ s2g " " ++ outcomeMessage result flags
  else format.

(** Console lines written and the argument of [os.Exit], if called. *)
Definition parseStatus (h : host) (message : gostring) (result : CmdResult)
  (flags : CmdFlags) (failMessage : list gostring) : list event * option Z :=
  if negb (PrintStatus flags) then ([], None)
  else
    let printed := [OutLine (statusLine h message result flags)] in
    if negb (Success result) then
      let failEv :=
        match failMessage with
        | m :: _ => if negb (is_empty m) then [ErrorMsg h m] else []
        | [] => []
        end in
      (printed ++ failEv, if Strict flags then Some (ExitCode result) else None)
    else (printed, None).

(** ** RunCmd and its variants *)

Inductive outcome := Returned (r : CmdResult) | Exited (code : Z).

(** [flags] is [None] for a nil [*CmdFlags]; [failMessage] is the
    variadic tail. *)
Definition RunCmd (h : host) (command message : gostring) (flags : option CmdFlags)
  (failMessage : list gostring) : list event * outcome :=
  let flags := match flags with None => DefaultCmdFlags | Some f => f end in
  let ev1 := if PrintMessage flags then [Info h message] else [] in
  let ev2 := if PrintCmd flags then [Info h command] else [] in
  let result := snd (execSystemCommand h command flags) in
  let '(ev3, exit) := parseStatus h message result flags failMessage in
  (ev1 ++ ev2 ++ ev3, match exit with Some code => Exited code | None => Returned result end).

Definition with_print (f : CmdFlags) (strict printOutput printMessage printStatus printOutcome : bool)
  : CmdFlags :=
  {| Strict := strict; PrintCmd := PrintCmd f; DecorateOutput := DecorateOutput f;
     PrintOutput := printOutput; PrintMessage := printMessage; PrintStatus := printStatus;
     PrintOutcome := printOutcome; StrictMessage := StrictMessage f;
     NoStrictMessage := NoStrictMessage f; ValidExitCodes := ValidExitCodes f |}.


Definition RunCmdStrict (h : host) (command message : gostring) (failMessage : list gostring) :=
  let flags := with_print DefaultCmdFlags true false false (PrintStatus DefaultCmdFlags) false in
  RunCmd h command message (Some flags) failMessage.

Definition RunCmdSilentStrict (h : host) (command message : gostring) (failMessage : list gostring) :=
  let flags := with_print DefaultCmdFlags true false false false false in
  RunCmd h command message (Some flags) failMessage.

(** ** A concrete host for examples

    [echo] prints its arguments; [sh -c 'exit 7'] exits with 7;
    [sh -c 'echo oops >&2'] writes "oops" on stderr; [printf 'a\r\n']
    writes a CR-LF terminated line; any other program is not found.  The
    readers drain both pipes before [Wait] closes them. *)

Fixpoint join_space (l : list gostring) : gostring :=
  match l with
  | [] => []
  | [x] => x
  | x :: l' => x ++ [32] ++ join_space l'
  end.

Definition gs_eqb (a b : gostring) : bool :=
  if list_eq_dec Z.eq_dec a b then true else false.

Definition args_eqb (a b : list gostring) : bool :=
  if list_eq_dec (list_eq_dec Z.eq_dec) a b then true else false.

Definition ran (out err : gostring) (w : wait_result) : process :=
  {| stdout_pipe_err := None; stderr_pipe_err := None; start_err := None;
     stdout_data := out; stderr_data := err;
     stdout_read := List.length out; stderr_read := List.length err; wait_res := w |}.

Definition not_found (program : gostring) : process :=
  {| stdout_pipe_err := None; stderr_pipe_err := None;
     start_err := Some (s2g "exec: " ++ [34] ++ program ++ [34]
                        ++ s2g ": executable file not found in $PATH");
     stdout_data := []; stderr_data := []; stdout_read := 0; stderr_read := 0;
     wait_res := WaitNil |}.

Definition demo_exec (program : gostring) (args : list gostring) : process :=
  if gs_eqb program (s2g "echo") then ran (join_space args ++ [10]) [] WaitNil
  else if gs_eqb program (s2g "sh") && args_eqb args [s2g "-c"; s2g "exit 7"]
  then ran [] [] (WaitExitError 7)
  else if gs_eqb program (s2g "sh") && args_eqb args [s2g "-c"; s2g "echo oops >&2"]
  then ran [] (s2g "oops" ++ [10]) WaitNil
  else if gs_eqb program (s2g "printf") && args_eqb args [s2g "a\r\n"]
  then ran [97; 13; 10] [] WaitNil
  else not_found program.

Definition demo_host : host := {| entrypoint_script := s2g "tf"; os_exec := demo_exec |}.

(** [DefaultCmdFlags()] with [DecorateOutput] and [PrintOutput] set. *)
Definition capture_flags : CmdFlags :=
  {| Strict := false; PrintCmd := false; DecorateOutput := true; PrintOutput := true;
     PrintMessage := true; PrintStatus := true; PrintOutcome := false;
     StrictMessage := StrictMessage DefaultCmdFlags;
     NoStrictMessage := NoStrictMessage DefaultCmdFlags; ValidExitCodes := [0] |}.

(** [manager.go], [ensureWorkspace]: [DefaultCmdFlags()] with
    [ValidExitCodes = []int{0, 1}]. *)
Definition workspace_new_flags : CmdFlags :=
  {| Strict := false; PrintCmd := false; DecorateOutput := false; PrintOutput := true;
     PrintMessage := true; PrintStatus := true; PrintOutcome := false;
     StrictMessage := StrictMessage DefaultCmdFlags;
     NoStrictMessage := NoStrictMessage DefaultCmdFlags; ValidExitCodes := [0; 1] |}.

(** [DefaultCmdFlags()] with [PrintOutcome = true]. *)
Definition outcome_flags : CmdFlags :=
  with_print DefaultCmdFlags false true true true true.

(** Whether an [exec.Cmd] was built and started. *)
Definition launched (c : option Cmd) : bool :=
  match c with Some cmd => Started cmd | None => false end.

(** A line the scanner can return whole: no newline inside, and short
    enough for the 64 KiB buffer. *)
Definition line_okb (l : gostring) : bool :=
  negb (existsb (Z.eqb 10) l) && (golen l <? MaxScanTokenSize).

(** The stream a process writes when it prints the lines [ls]. *)
Definition lines_text (ls : list gostring) : gostring :=
  List.concat (map (fun l => l ++ [10]) ls).

(** A character at which no escape sequence can continue or start. *)
Definition sep_char (c : Z) : bool :=
  negb (c =? ESC) && negb (c =? 91) && negb (ansi_param c) && negb (c =? 109).

Definition is_ascii (s : gostring) : bool := forallb (fun r => r <? 128) s.

(** The padding [parseStatus] computes. *)
Definition paddingWidth (h : host) (message : gostring) : Z :=
  let w := totalWidth - getVisualLength (s2g "[" ++ GetEntrypointScript h ++ s2g "]")
           - 1 - getVisualLength message - 1 - 5 in
  if w <? 1 then 1 else w.

(** The [exec.Cmd] of "echo hello" in pipe-capture mode, once started. *)
Definition echo_hello_cmd : Cmd :=
  {| Path := s2g "echo"; Args := [s2g "echo"; s2g "hello"]; Stdin := None;
     Stdout := Some PipeToParent; Stderr := Some PipeToParent; Started := true |}.

(** ** The rest of runner.go *)

(** [RunCmdInteractive]: [DefaultCmdFlags()] with [DecorateOutput = false]
    and [PrintOutput = true]. *)
Definition RunCmdInteractive (h : host) (command message : gostring)
  (failMessage : list gostring) :=
  let f := DefaultCmdFlags in
  let flags := {| Strict := Strict f; PrintCmd := PrintCmd f; DecorateOutput := false;
                  PrintOutput := true; PrintMessage := PrintMessage f;
                  PrintStatus := PrintStatus f; PrintOutcome := PrintOutcome f;
                  StrictMessage := StrictMessage f; NoStrictMessage := NoStrictMessage f;
                  ValidExitCodes := ValidExitCodes f |} in
  RunCmd h command message (Some flags) failMessage.

(** [os.Stat]: [None] when it returns an error, [Some isDir] otherwise. *)
Definition fsys := gostring -> option bool.

(** [NativeFunc]: a [func() *CmdResult]. *)
Definition NativeFunc := unit -> CmdResult.

(** [RunNative]; [flags] is [None] for a nil [*CmdFlags]. *)
Definition RunNative (h : host) (nativeFunc : NativeFunc) (message : gostring)
  (flags : option CmdFlags) (failMessage : list gostring) : list event * outcome :=
  let flags := match flags with None => DefaultCmdFlags | Some f => f end in
  let ev1 := if PrintMessage flags then [Info h message] else [] in
  let result := nativeFunc tt in
  let '(ev2, exit) := parseStatus h message result flags failMessage in
  (ev1 ++ ev2, match exit with Some code => Exited code | None => Returned result end).

(** [TestDir]: [os.Stat(path)] succeeds and reports a directory. *)
Definition TestDir (fs : fsys) (path : gostring) : CmdResult :=
  match fs path with
  | Some true =>
      {| ExitCode := 0; Success := true; Output := s2g "Directory exists: " ++ path;
         Error := [] |}
  | _ =>
      {| ExitCode := 1; Success := false; Output := [];
         Error := s2g "Directory does not exist: " ++ path |}
  end.

(** [TestFile]: [os.Stat(path)] succeeds and reports no directory. *)
Definition TestFile (fs : fsys) (path : gostring) : CmdResult :=
  match fs path with
  | Some false =>
      {| ExitCode := 0; Success := true; Output := s2g "File exists: " ++ path; Error := [] |}
  | _ =>
      {| ExitCode := 1; Success := false; Output := [];
         Error := s2g "File does not exist: " ++ path |}
  end.

Definition TestNotEmpty (value : gostring) : CmdResult :=
  if negb (is_empty value) then
    {| ExitCode := 0; Success := true;
       Output := s2g "String is not empty: '" ++ value ++ s2g "'"; Error := [] |}
  else
    {| ExitCode := 1; Success := false; Output := []; Error := s2g "String is empty" |}.

Definition NativeTestDir (fs : fsys) (path : gostring) : NativeFunc := fun _ => TestDir fs path.
Definition NativeTestFile (fs : fsys) (path : gostring) : NativeFunc := fun _ => TestFile fs path.
Definition NativeTestNotEmpty (value : gostring) : NativeFunc := fun _ => TestNotEmpty value.

(** ** Package strings, on one-rune separators *)

Module strings.

(** [strings.Split(s, sep)]; [cur] is the element read so far. *)
Fixpoint split_from (sep : Z) (cur s : gostring) : list gostring :=
  match s with
  | [] => [cur]
  | c :: s' => if c =? sep then cur :: split_from sep [] s' else split_from sep (cur ++ [c]) s'
  end.

Definition Split (s : gostring) (sep : Z) : list gostring := split_from sep [] s.

Definition HasPrefix (s prefix : gostring) : bool :=
  gs_eqb (firstn (List.length prefix) s) prefix.

Definition TrimPrefix (s prefix : gostring) : gostring :=
  if HasPrefix s prefix then skipn (List.length prefix) s else s.

Fixpoint Contains (s substr : gostring) : bool :=
  HasPrefix s substr || match s with [] => false | _ :: s' => Contains s' substr end.

(** [strings.ReplaceAll(s, old, new)] for a one-rune [old]. *)
Fixpoint ReplaceAll (s : gostring) (old : Z) (new : gostring) : gostring :=
  match s with
  | [] => []
  | c :: s' => (if c =? old then new else [c]) ++ ReplaceAll s' old new
  end.

Fixpoint Join (elems : list gostring) (sep : gostring) : gostring :=
  match elems with
  | [] => []
  | [x] => x
  | x :: elems' => x ++ sep ++ Join elems' sep
  end.

(** [strings.Fields(s)]: the maximal runs of runes that are not
    [unicode.IsSpace]; [cur] is the field read so far. *)
Fixpoint fields_from (cur s : gostring) : list gostring :=
  match s with
  | [] => if is_empty cur then [] else [cur]
  | c :: s' =>
      if IsSpace c then (if is_empty cur then fields_from [] s' else cur :: fields_from [] s')
      else fields_from (cur ++ [c]) s'
  end.

Definition Fields (s : gostring) : list gostring := fields_from [] s.

End strings.

(** ** Package path/filepath (Unix) *)

Module filepath.

Definition Separator : Z := 47.

(** One path element in the loop of [Clean].  The output buffer is kept
    as the stack of the elements written so far (last first); "." and
    empty elements are skipped; ".." removes the last element when it is
    not itself a "..", and is otherwise written, except at the root of a
    rooted path where it is dropped. *)
Definition clean_elem (rooted : bool) (st : list gostring) (e : gostring) : list gostring :=
  if is_empty e || gs_eqb e (s2g ".") then st
  else if gs_eqb e (s2g "..") then
    match st with
    | top :: st' => if gs_eqb top (s2g "..") then (if rooted then st else e :: st) else st'
    | [] => if rooted then [] else [e]
    end
  else e :: st.

(** The buffer as a string; an empty result is "." (or "/" when rooted). *)
Definition clean_render (rooted : bool) (st : list gostring) : gostring :=
  let body := strings.Join (rev st) [Separator] in
  if rooted then Separator :: body
  else if is_empty body then s2g "." else body.

Definition Clean (path : gostring) : gostring :=
  match path with
  | [] => s2g "."
  | c :: _ =>
      let rooted := c =? Separator in
      clean_render rooted (fold_left (clean_elem rooted) (strings.Split path Separator) [])
  end.

(** [filepath.Join(elem...)]: the elements from the first non-empty one,
    joined with the separator and cleaned; "" when all are empty. *)
Fixpoint Join (elem : list gostring) : gostring :=
  match elem with
  | [] => []
  | e :: elem' => if is_empty e then Join elem' else Clean (strings.Join elem [Separator])
  end.

End filepath.

(** ** Package config (the fields and getters the manager uses) *)

Module config.

Record Config := mkConfig {
  RepoName : gostring;
  EnvRelPath : gostring;
  ModuleRelPath : gostring;
  ProjectDir : gostring;
  ConfigPath : gostring;
  ConfigVersion : gostring
}.

Definition GetModulePath (c : Config) : gostring := filepath.Join [ProjectDir c; ModuleRelPath c].
Definition GetEnvPath (c : Config) : gostring := filepath.Join [ProjectDir c; EnvRelPath c].

End config.

(** ** Package terraform: manager.go

    The manager runs its commands through [RunCmd] and its checks through
    [RunNative].  A manager computation records the command strings given
    to [RunCmd], in order, and the console lines, and ends with a value
    or with [os.Exit].  Paths are looked up as given: [ProjectDir] comes
    from [os.Getwd], so they are absolute and [os.Chdir] does not change
    what they name.  [Debug] lines are not modelled. *)

Module terraform.

Record Manager := NewManager { config : config.Config }.

Record Command := mkCommand {
  Product : gostring;
  Module_ : gostring;
  Env : gostring;
  ModuleInstance : gostring;
  Action : gostring;
  ActionFlags : gostring;
  Workspace : gostring
}.

Record Paths := mkPaths {
  ModulePath : gostring;
  EnvPath : gostring;
  ModuleEnvPath : gostring;
  VarFile : gostring;
  PlanFile : gostring
}.

(** What the manager reads besides command runs: [os.Stat],
    [os.Getenv], and the error [os.Chdir] returns for a directory. *)
Record world := mkWorld {
  stat : fsys;
  getenv : gostring -> gostring;
  chdir : gostring -> option gostring
}.

Inductive mres (A : Type) := MRet (a : A) | MExit (code : Z).
Arguments MRet {A} a.
Arguments MExit {A} code.

Definition M (A : Type) : Type := (list gostring * list event * mres A)%type.

Definition ret {A : Type} (a : A) : M A := ([], [], MRet a).

Definition bind {A B : Type} (m : M A) (k : A -> M B) : M B :=
  match m with
  | (t, e, MRet a) => let '(t', e', r) := k a in (t ++ t', e ++ e', r)
  | (t, e, MExit c) => (t, e, MExit c)
  end.

Local Notation "'do' x <- m ;; k" := (bind m (fun x => k))
  (at level 200, x name, m at level 100, k at level 200).

Definition say (ev : event) : M unit := ([], [ev], MRet tt).

Definition of_outcome (o : outcome) : mres CmdResult :=
  match o with Returned r => MRet r | Exited c => MExit c end.

(** [framework.RunCmd(command, message, flags, failMessage...)]. *)
Definition runCmd (h : host) (command message : gostring) (flags : CmdFlags)
  (failMessage : list gostring) : M CmdResult :=
  let '(ev, o) := RunCmd h command message (Some flags) failMessage in
  ([command], ev, of_outcome o).

(** [framework.RunNative(nativeFunc, message, flags, failMessage...)]. *)
Definition runNative (h : host) (nativeFunc : NativeFunc) (message : gostring)
  (flags : CmdFlags) (failMessage : list gostring) : M CmdResult :=
  let '(ev, o) := RunNative h nativeFunc message (Some flags) failMessage in
  ([], ev, of_outcome o).

(** [fmt.Sprintf("\"%s\"", s)]. *)
Definition dq (s : gostring) : gostring := [34] ++ s ++ [34].

(** [DefaultCmdFlags()] with [PrintOutput] and [PrintMessage] off. *)
Definition quiet_flags : CmdFlags :=
  with_print DefaultCmdFlags (Strict DefaultCmdFlags) false false
    (PrintStatus DefaultCmdFlags) (PrintOutcome DefaultCmdFlags).

Definition validateCommand (w : world) (h : host) (m : Manager) (cmd : Command)
  : M (option gostring) :=
  let cfg := config m in
  let productPath := filepath.Join [config.GetEnvPath cfg; Product cmd] in
  let flags := quiet_flags in
  do result <- runNative h (NativeTestDir (stat w) productPath)
              (s2g "Checking product " ++ AddEmphasisBlue (Product cmd) ++ s2g " is valid") flags
              [s2g "Product path " ++ dq (AddEmphasisBlue productPath) ++ s2g " was not found!"] ;;
  if negb (Success result) then ret (Some (s2g "product validation failed")) else
  if is_empty (config.RepoName cfg) then
    do _ <- say (ErrorMsg h (s2g "Repo name is empty!")) ;;
    ret (Some (s2g "repo validation failed"))
  else
  do result <- runNative h (NativeTestNotEmpty (config.RepoName cfg))
              (s2g "Checking repo " ++ AddEmphasisBlue (config.RepoName cfg) ++ s2g " is valid") flags
              [s2g "Component is empty. Make sure the first argument is set to a non-null string"] ;;
  if negb (Success result) then ret (Some (s2g "repo validation failed")) else
  let modulePath := filepath.Join [config.GetModulePath cfg; Module_ cmd] in
  do result <- runNative h (NativeTestDir (stat w) modulePath)
              (s2g "Checking module " ++ AddEmphasisBlue (Module_ cmd) ++ s2g " exists") flags
              [s2g "Module path " ++ dq (AddEmphasisBlue modulePath) ++ s2g " was not found!"] ;;
  if negb (Success result) then ret (Some (s2g "module validation failed")) else
  let envPath := filepath.Join [config.GetEnvPath cfg; Product cmd; Env cmd] in
  do result <- runNative h (NativeTestDir (stat w) envPath)
              (s2g "Checking environment " ++ AddEmphasisBlue (Env cmd) ++ s2g " exists") flags
              [s2g "Environment path " ++ dq (AddEmphasisBlue envPath) ++ s2g " was not found!"] ;;
  if negb (Success result) then ret (Some (s2g "environment validation failed")) else
  let varFile := filepath.Join [envPath; Module_ cmd; ModuleInstance cmd ++ s2g ".tfvars"] in
  do result <- runNative h (NativeTestFile (stat w) varFile)
              (s2g "Checking config " ++ AddEmphasisBlue (ModuleInstance cmd) ++ s2g ".tfvars exists")
              flags
              [s2g "Config file " ++ dq (AddEmphasisBlue varFile) ++ s2g " was not found!"] ;;
  if negb (Success result) then ret (Some (s2g "config validation failed")) else
  ret None.

Definition computePaths (m : Manager) (cmd : Command) : Paths :=
  let modulePath := filepath.Join [config.GetModulePath (config m); Module_ cmd] in
  let envPath := filepath.Join [config.GetEnvPath (config m); Product cmd; Env cmd] in
  let moduleEnvPath := filepath.Join [envPath; Module_ cmd] in
  let varFile := filepath.Join [moduleEnvPath; ModuleInstance cmd ++ s2g ".tfvars"] in
  let planFile := filepath.Join [moduleEnvPath; ModuleInstance cmd ++ s2g ".tfvars.tfplan"] in
  {| ModulePath := modulePath; EnvPath := envPath; ModuleEnvPath := moduleEnvPath;
     VarFile := varFile; PlanFile := planFile |}.

(** [fmt.Sprintf("%s.%s.%s.%s.%s", ...)] of the five parts. *)
Definition generateWorkspace (m : Manager) (cmd : Command) (paths : Paths) : gostring :=
  let envSanitized := strings.ReplaceAll (Env cmd) 47 (s2g "__") in
  strings.Join [Product cmd; config.RepoName (config m); Module_ cmd; envSanitized;
                ModuleInstance cmd] (s2g ".").

Definition detectExecMode (w : world) : gostring :=
  if negb (is_empty (getenv w (s2g "TF_EXEC_MODE_OVERRIDE"))) then s2g "unattended"
  else if gs_eqb (getenv w (s2g "USER")) (s2g "jenkins") then s2g "unattended"
  else s2g "operator".

(** The loop over the lines of [terraform workspace list]: [Some true]
    when a line names the workspace and it is to be selected, [Some
    false] when it names it and is already current, [None] when no line
    names it. *)
Fixpoint ws_scan (workspaceName : gostring) (lines : list gostring) : option bool :=
  match lines with
  | [] => None
  | line :: lines' =>
      let line := TrimSpace line in
      let line := if strings.HasPrefix line (s2g "* ") then strings.TrimPrefix line (s2g "* ")
                  else line in
      if gs_eqb line workspaceName then
        Some (negb (strings.HasPrefix (TrimSpace line) (s2g "* ")))
      else ws_scan workspaceName lines'
  end.

Definition selectWorkspace (h : host) (workspaceName : gostring) : M (option gostring) :=
  do result <- runCmd h (s2g "terraform workspace select " ++ workspaceName)
              (s2g "Selecting workspace " ++ AddEmphasisBlue workspaceName) DefaultCmdFlags
              [s2g "Failed to select workspace " ++ workspaceName] ;;
  if negb (Success result) then ret (Some (s2g "failed to select workspace " ++ workspaceName))
  else ret None.

Definition ensureWorkspace (h : host) (workspaceName : gostring) : M (option gostring) :=
  do result <- runCmd h (s2g "terraform workspace list") (s2g "Checking available workspaces")
              quiet_flags [] ;;
  if negb (Success result) then ret (Some (s2g "failed to list workspaces")) else
  match ws_scan workspaceName (strings.Split (Output result) 10) with
  | Some true => selectWorkspace h workspaceName
  | Some false => ret None
  | None =>
      do result <- runCmd h (s2g "terraform workspace new " ++ workspaceName)
                  (s2g "Creating workspace " ++ AddEmphasisBlue workspaceName) workspace_new_flags
                  [s2g "Failed to create workspace " ++ workspaceName] ;;
      if negb (Success result) && strings.Contains (Error result) (s2g "already exists")
      then selectWorkspace h workspaceName
      else if negb (Success result)
      then ret (Some (s2g "failed to create workspace " ++ workspaceName))
      else ret None
  end.

(** [terraformCmd += " " + cmd.ActionFlags] when the flags are set. *)
Definition with_action_flags (terraformCmd actionFlags : gostring) : gostring :=
  if negb (is_empty actionFlags) then terraformCmd ++ s2g " " ++ actionFlags else terraformCmd.

(** The body shared by the [terraformX] methods: run the command with
    [DefaultCmdFlags()] and turn a failure into an error. *)
Definition runTerraform (h : host) (terraformCmd message failMessage errMessage : gostring)
  : M (option gostring) :=
  do result <- runCmd h terraformCmd message DefaultCmdFlags [failMessage] ;;
  if negb (Success result) then ret (Some errMessage) else ret None.

Definition terraformInit (h : host) (cmd : Command) (paths : Paths) :=
  runTerraform h (with_action_flags (s2g "terraform init") (ActionFlags cmd))
    (s2g "Initializing terraform") (s2g "Terraform init failed") (s2g "terraform init failed").

Definition terraformPlan (h : host) (cmd : Command) (paths : Paths) :=
  runTerraform h
    (with_action_flags (s2g "terraform plan -var-file=" ++ dq (VarFile paths) ++ s2g " -out="
                        ++ dq (PlanFile paths)) (ActionFlags cmd))
    (s2g "Planning terraform changes") (s2g "Terraform plan failed") (s2g "terraform plan failed").

Definition terraformApply (w : world) (h : host) (cmd : Command) (paths : Paths) :=
  let terraformCmd :=
    match stat w (PlanFile paths) with
    | Some _ => s2g "terraform apply " ++ dq (PlanFile paths)
    | None => with_action_flags (s2g "terraform apply -var-file=" ++ dq (VarFile paths))
                (ActionFlags cmd)
    end in
  runTerraform h terraformCmd (s2g "Applying terraform changes") (s2g "Terraform apply failed")
    (s2g "terraform apply failed").

Definition terraformDestroy (h : host) (cmd : Command) (paths : Paths) :=
  runTerraform h
    (with_action_flags (s2g "terraform destroy -var-file=" ++ dq (VarFile paths)) (ActionFlags cmd))
    (s2g "Destroying terraform resources") (s2g "Terraform destroy failed")
    (s2g "terraform destroy failed").

Definition terraformOutput (h : host) (cmd : Command) (paths : Paths) :=
  runTerraform h (with_action_flags (s2g "terraform output") (ActionFlags cmd))
    (s2g "Getting terraform outputs") (s2g "Terraform output failed")
    (s2g "terraform output failed").

Definition terraformImport (h : host) (cmd : Command) (paths : Paths) :=
  runTerraform h
    (with_action_flags (s2g "terraform import -var-file=" ++ dq (VarFile paths)) (ActionFlags cmd))
    (s2g "Importing terraform resource") (s2g "Terraform import failed")
    (s2g "terraform import failed").

Definition terraformTaint (h : host) (cmd : Command) (paths : Paths) :=
  runTerraform h (with_action_flags (s2g "terraform taint") (ActionFlags cmd))
    (s2g "Tainting terraform resource") (s2g "Terraform taint failed")
    (s2g "terraform taint failed").

Definition terraformUntaint (h : host) (cmd : Command) (paths : Paths) :=
  runTerraform h (with_action_flags (s2g "terraform untaint") (ActionFlags cmd))
    (s2g "Untainting terraform resource") (s2g "Terraform untaint failed")
    (s2g "terraform untaint failed").

Definition terraformState (h : host) (cmd : Command) (paths : Paths) :=
  runTerraform h (with_action_flags (s2g "terraform state") (ActionFlags cmd))
    (s2g "Managing terraform state") (s2g "Terraform state command failed")
    (s2g "terraform state command failed").

Definition terraformRefresh (h : host) (cmd : Command) (paths : Paths) :=
  runTerraform h
    (with_action_flags (s2g "terraform refresh -var-file=" ++ dq (VarFile paths)) (ActionFlags cmd))
    (s2g "Refreshing terraform state") (s2g "Terraform refresh failed")
    (s2g "terraform refresh failed").

Definition terraformValidate (h : host) (cmd : Command) (paths : Paths) :=
  runTerraform h (with_action_flags (s2g "terraform validate") (ActionFlags cmd))
    (s2g "Validating terraform configuration") (s2g "Terraform validate failed")
    (s2g "terraform validate failed").

Definition terraformFormat (h : host) (cmd : Command) (paths : Paths) :=
  runTerraform h (with_action_flags (s2g "terraform fmt") (ActionFlags cmd))
    (s2g "Formatting terraform files") (s2g "Terraform fmt failed") (s2g "terraform fmt failed").

Definition terraformShow (w : world) (h : host) (cmd : Command) (paths : Paths) :=
  let terraformCmd :=
    match stat w (PlanFile paths) with
    | Some _ => s2g "terraform show " ++ dq (PlanFile paths)
    | None => s2g "terraform show"
    end in
  runTerraform h (with_action_flags terraformCmd (ActionFlags cmd))
    (s2g "Showing terraform state/plan") (s2g "Terraform show failed")
    (s2g "terraform show failed").

Definition executeTerraformAction (w : world) (h : host) (cmd : Command) (paths : Paths)
  (workspaceName : gostring) : M (option gostring) :=
  let a := Action cmd in
  if gs_eqb a (s2g "init") then terraformInit h cmd paths
  else if gs_eqb a (s2g "plan") then terraformPlan h cmd paths
  else if gs_eqb a (s2g "apply") then terraformApply w h cmd paths
  else if gs_eqb a (s2g "destroy") then terraformDestroy h cmd paths
  else if gs_eqb a (s2g "output") then terraformOutput h cmd paths
  else if gs_eqb a (s2g "import") then terraformImport h cmd paths
  else if gs_eqb a (s2g "taint") then terraformTaint h cmd paths
  else if gs_eqb a (s2g "untaint") then terraformUntaint h cmd paths
  else if gs_eqb a (s2g "state") then terraformState h cmd paths
  else if gs_eqb a (s2g "refresh") then terraformRefresh h cmd paths
  else if gs_eqb a (s2g "validate") then terraformValidate h cmd paths
  else if gs_eqb a (s2g "fmt") || gs_eqb a (s2g "format") then terraformFormat h cmd paths
  else if gs_eqb a (s2g "show") then terraformShow w h cmd paths
  else ret (Some (s2g "unsupported terraform action: " ++ a)).

(** [m.Execute(cmd)]; [None] is a nil error. *)
Definition Execute (w : world) (h : host) (m : Manager) (cmd : Command) : M (option gostring) :=
  do _ <- say (Info h (s2g "Detected exec mode: " ++ detectExecMode w)) ;;
  do err <- validateCommand w h m cmd ;;
  match err with
  | Some e => ret (Some e)
  | None =>
    let paths := computePaths m cmd in
    let workspaceName := generateWorkspace m cmd paths in
    do _ <- say (Info h (s2g "*** Terraform ***")) ;;
    do _ <- say (Info h (s2g "Running from " ++ dq (ModulePath paths))) ;;
    match chdir w (ModulePath paths) with
    | Some e =>
        ret (Some (s2g "failed to change to module directory " ++ ModulePath paths
                   ++ s2g ": " ++ e))
    | None =>
      do _ <- say (Info h (s2g "Executing terraform " ++ Action cmd)) ;;
      if gs_eqb (Action cmd) (s2g "init") then
        do err <- terraformInit h cmd paths ;;
        match err with
        | Some e => ret (Some (s2g "failed to initialize terraform: " ++ e))
        | None =>
          do err <- ensureWorkspace h workspaceName ;;
          match err with
          | Some e => ret (Some (s2g "failed to ensure workspace: " ++ e))
          | None => ret None
          end
        end
      else
        do err <- ensureWorkspace h workspaceName ;;
        match err with
        | Some e => ret (Some (s2g "failed to ensure workspace: " ++ e))
        | None => executeTerraformAction w h cmd paths workspaceName
        end
    end
  end.

End terraform.


(** ** A concrete terraform host for examples

    [terraform workspace list] lists "default" (current) and "dev";
    [terraform workspace new] exits with 1 as for a workspace that
    already exists; any other [terraform] command succeeds; other
    programs are not found. *)

Definition tf_exec (program : gostring) (args : list gostring) : process :=
  if gs_eqb program (s2g "terraform") then
    if args_eqb args [s2g "workspace"; s2g "list"] then
      ran (s2g "* default" ++ [10] ++ s2g "  dev" ++ [10]) [] WaitNil
    else if args_eqb (firstn 2 args) [s2g "workspace"; s2g "new"] then
      ran [] (s2g "Workspace already exists" ++ [10]) (WaitExitError 1)
    else ran [] [] WaitNil
  else not_found program.

Definition tf_host : host := {| entrypoint_script := s2g "tf"; os_exec := tf_exec |}.

(** A checkout with a product "app", module "net", environment "dev" and
    the config file of instance "main". *)
Definition demo_config : config.Config :=
  {| config.RepoName := s2g "infra"; config.EnvRelPath := s2g "terraform/environments";
     config.ModuleRelPath := s2g "terraform/modules"; config.ProjectDir := s2g "/repo";
     config.ConfigPath := s2g "/repo/.tfm.yaml"; config.ConfigVersion := s2g "2.0" |}.

Definition demo_stat (p : gostring) : option bool :=
  if gs_eqb p (s2g "/repo/terraform/environments/app") then Some true
  else if gs_eqb p (s2g "/repo/terraform/modules/net") then Some true
  else if gs_eqb p (s2g "/repo/terraform/environments/app/dev") then Some true
  else if gs_eqb p (s2g "/repo/terraform/environments/app/dev/net/main.tfvars") then Some false
  else None.

Definition demo_world : terraform.world :=
  {| terraform.stat := demo_stat; terraform.getenv := fun _ => [];
     terraform.chdir := fun _ => None |}.

Definition demo_command (action : gostring) : terraform.Command :=
  {| terraform.Product := s2g "app"; terraform.Module_ := s2g "net"; terraform.Env := s2g "dev";
     terraform.ModuleInstance := s2g "main"; terraform.Action := action;
     terraform.ActionFlags := []; terraform.Workspace := [] |}.


(** The same checkout after a [plan] of instance "main" saved its plan file. *)
Definition demo_world_planned : terraform.world :=
  {| terraform.stat := fun p =>
       if gs_eqb p (s2g "/repo/terraform/environments/app/dev/net/main.tfvars.tfplan")
       then Some false else demo_stat p;
     terraform.getenv := fun _ => []; terraform.chdir := fun _ => None |}.

(** ** Package cli: the parsing of the command line *)

Module cli.

(** [parseCommand(args)]: [inl cmd] for [(cmd, nil)], [inr msg] for the
    error [fmt.Errorf(msg)].  A missing [args[i]] cannot be read: the
    arity checks come first. *)
Definition parseCommand (args : list gostring) : terraform.Command + gostring :=
  if Nat.ltb (List.length args) 5 then inr (s2g "insufficient arguments")
  else if Nat.ltb 6 (List.length args) then inr (s2g "too many arguments")
  else
    let actionRaw := nth 4 args [] in
    let actionParts := strings.Fields actionRaw in
    let '(action, actionFlags) :=
      match actionParts with
      | [] => ([], [])
      | a :: rest =>
          (a, if Nat.ltb 1 (List.length actionParts) then strings.Join rest (s2g " ") else [])
      end in
    let workspace :=
      if Nat.eqb (List.length args) 6
      then strings.TrimPrefix (nth 5 args []) (s2g "workspace=") else [] in
    inl {| terraform.Product := nth 0 args []; terraform.Module_ := nth 1 args [];
           terraform.Env := nth 2 args []; terraform.ModuleInstance := nth 3 args [];
           terraform.Action := action; terraform.ActionFlags := actionFlags;
           terraform.Workspace := workspace |}.

End cli.

(** ** Predicates used by the properties below *)


(** A word that can be passed between double quotes: non-empty, no
    double quote. *)
Definition quotable_word (x : gostring) : bool :=
  negb (is_empty x) && negb (existsb (Z.eqb 34) x).

(** The actions [executeTerraformAction] dispatches. *)
Definition terraform_actions : list gostring :=
  [s2g "init"; s2g "plan"; s2g "apply"; s2g "destroy"; s2g "output"; s2g "import";
   s2g "taint"; s2g "untaint"; s2g "state"; s2g "refresh"; s2g "validate"; s2g "fmt";
   s2g "format"; s2g "show"].

(** The buffer [Clean] keeps between two elements: elements that are
    non-empty, hold no separator and are not "."; a run of ".." at the
    start of the path only (the end of the stack), and none when the path
    is rooted. *)
Definition good_stack (rooted : bool) (st : list gostring) : Prop :=
  Forall (fun e => e <> [] /\ ~ In filepath.Separator e /\ e <> s2g ".") st /\
  exists names dots, st = names ++ dots /\ Forall (fun e => e <> s2g "..") names /\
    Forall (fun e => e = s2g "..") dots /\ (rooted = true -> dots = []).

(** * Properties *)

(** ** General lemmas *)

Lemma validCode_loop_In (x : Z) (codes : list Z) :
  validCode_loop x codes = true <-> In x codes.
Proof.
  induction codes as [|v codes IH]; simpl.
  - split; [discriminate | contradiction].
  - destruct (Z.eqb_spec x v) as [->|Hne].
    + tauto.
    + rewrite IH. split; [tauto|]. intros [H|H]; [congruence|exact H].
Qed.

Lemma TrimLeftSpace_all_space (s : gostring) :
  forallb IsSpace s = true -> TrimLeftSpace s = [].
Proof.
  induction s as [|r s IH]; simpl; [reflexivity|].
  intros H. apply andb_prop in H as [Hr Hs]. rewrite Hr. exact (IH Hs).
Qed.

Lemma TrimSpace_all_space (s : gostring) :
  forallb IsSpace s = true -> TrimSpace s = [].
Proof.
  intros H. unfold TrimSpace. rewrite (TrimLeftSpace_all_space s H). reflexivity.
Qed.

Lemma proc_of_set_stdio h c i o e : proc_of h (set_stdio c i o e) = proc_of h c.
Proof. reflexivity. Qed.

(** The outcomes of [execCommand] on [exec.Command(program, args...)]. *)
Lemma execCommand_spec h program args flags :
  let p := os_exec h program args in
  let '(c, r) := execCommand h (Command program args) flags in
  Path c = program /\ Args c = program :: args /\
  (Started c = false ->
     exists e, r = launchFailure e /\
       (stdout_pipe_err p = Some e \/ stderr_pipe_err p = Some e \/ start_err p = Some e)) /\
  (Started c = true ->
     ExitCode r = exitCodeOf (wait_res p) /\
     Success r = validCode_loop (exitCodeOf (wait_res p)) (ValidExitCodes flags) /\
     Output r = (if DecorateOutput flags
                 then pump (firstn (stdout_read p) (stdout_data p)) else []) /\
     Error r = (if DecorateOutput flags
                then pump (firstn (stderr_read p) (stderr_data p)) else []) /\
     (DecorateOutput flags = false ->
        Stdin c = Some HostStdin /\ Stdout c = Some HostStdout /\ Stderr c = Some HostStderr)) /\
  (DecorateOutput flags = false ->
     Stdin c = Some HostStdin /\ Stdout c = Some HostStdout /\ Stderr c = Some HostStderr).
Proof.
  cbn zeta. unfold execCommand, StdoutPipe, StderrPipe, Start, proc_of. cbn.
  destruct (DecorateOutput flags) eqn:Hd; cbn;
    destruct (stdout_pipe_err (os_exec h program args)) eqn:E1;
    destruct (stderr_pipe_err (os_exec h program args)) eqn:E2;
    destruct (start_err (os_exec h program args)) eqn:E3; cbn;
    repeat split; intros; try discriminate; try reflexivity;
    try (eexists; split; [reflexivity | auto]).
Qed.

Lemma execSystemCommand_spec h command flags c r :
  execSystemCommand h command flags = (c, r) ->
  (c = None /\ r = launchFailure (s2g "empty command")) \/
  (exists program args cmd,
      parseCommand command = (program, args) /\ program <> [] /\ c = Some cmd /\
      execCommand h (Command program args) flags = (cmd, r)).
Proof.
  unfold execSystemCommand.
  destruct (is_empty (TrimSpace command)).
  - intros H. injection H as <- <-. left. split; reflexivity.
  - destruct (parseCommand command) as [program args] eqn:Hp.
    destruct (is_empty program) eqn:He.
    + intros H. injection H as <- <-. left. split; reflexivity.
    + destruct (execCommand h (Command program args) flags) as [cmd r'] eqn:Hx.
      intros H. injection H as <- <-. right.
      exists program, args, cmd. repeat split; auto.
      intros ->. discriminate.
Qed.

(** Facts about one [execCommand] run, read off [execCommand_spec]. *)
Lemma execCommand_facts h program args flags cmd r :
  execCommand h (Command program args) flags = (cmd, r) ->
  let p := os_exec h program args in
  proc_of h cmd = p /\
  (Started cmd = false ->
     exists e, r = launchFailure e /\
       (stdout_pipe_err p = Some e \/ stderr_pipe_err p = Some e \/ start_err p = Some e)) /\
  (Started cmd = true ->
     ExitCode r = exitCodeOf (wait_res p) /\
     Success r = validCode_loop (exitCodeOf (wait_res p)) (ValidExitCodes flags) /\
     Output r = (if DecorateOutput flags
                 then pump (firstn (stdout_read p) (stdout_data p)) else []) /\
     Error r = (if DecorateOutput flags
                then pump (firstn (stderr_read p) (stderr_data p)) else [])) /\
  (DecorateOutput flags = false ->
     Stdin cmd = Some HostStdin /\ Stdout cmd = Some HostStdout /\ Stderr cmd = Some HostStderr).
Proof.
  intros Hx. pose proof (execCommand_spec h program args flags) as S.
  cbn zeta in S. rewrite Hx in S.
  destruct S as (Hpath & Hargs & Hfail & Hok & Hio).
  cbn zeta. split; [unfold proc_of; rewrite Hpath, Hargs; reflexivity|].
  split; [exact Hfail|]. split; [|exact Hio].
  intros Hs. destruct (Hok Hs) as (H1 & H2 & H3 & H4 & _). auto.
Qed.

Lemma RunCmd_returned h command message flags fm ev r :
  RunCmd h command message (Some flags) fm = (ev, Returned r) ->
  r = snd (execSystemCommand h command flags).
Proof.
  unfold RunCmd.
  destruct (parseStatus h message (snd (execSystemCommand h command flags)) flags fm)
    as [ev3 [code|]].
  - discriminate.
  - intros H. injection H as _ <-. reflexivity.
Qed.

(** ** Claims *)

(** C1 (corrected).  Counterexample: with [ValidExitCodes = {0, 1}] (as
    [ensureWorkspace] sets them) and a program that is not installed,
    [RunCmd] returns exit code 1, which is a valid code, yet
    [Success = false]. *)
Lemma C1_launch_failure_not_success :
  match snd (RunCmd demo_host (s2g "terraform workspace new dev") (s2g "Creating workspace")
               (Some workspace_new_flags) []) with
  | Returned r => ExitCode r = 1 /\ In (ExitCode r) (ValidExitCodes workspace_new_flags)
                  /\ Success r = false
  | Exited _ => False
  end.
Proof. vm_compute. split; [reflexivity | split; [right; left; reflexivity | reflexivity]]. Qed.

(** C1 (amended).  For every result [RunCmd] returns, [Success] holds
    exactly when the command was started and its exit code is one of
    [flags.ValidExitCodes]; a launch failure (exit code 1) is never a
    success. *)
Theorem RunCmd_success_iff_valid h command message flags fm ev r :
  RunCmd h command message (Some flags) fm = (ev, Returned r) ->
  (Success r = true <->
   launched (fst (execSystemCommand h command flags)) = true /\
   In (ExitCode r) (ValidExitCodes flags)).
Proof.
  intros Hrun. apply RunCmd_returned in Hrun. subst r.
  destruct (execSystemCommand h command flags) as [c r] eqn:He. cbn [fst snd].
  destruct (execSystemCommand_spec h command flags c r He)
    as [[-> ->] | (program & args & cmd & _ & _ & -> & Hx)].
  - cbn. split; [discriminate | intros [H _]; discriminate].
  - destruct (execCommand_facts h program args flags cmd r Hx) as (_ & Hfail & Hok & _).
    cbn [launched]. destruct (Started cmd) eqn:Hs.
    + destruct (Hok eq_refl) as (Hc & Hsucc & _). rewrite Hsucc, Hc, validCode_loop_In.
      tauto.
    + destruct (Hfail eq_refl) as (e & -> & _). cbn. split; [discriminate | intros [H _]; discriminate].
Qed.

Lemma RunCmd_success_iff_valid_witness :
  RunCmd demo_host (s2g "sh -c 'exit 7'") (s2g "msg") (Some DefaultCmdFlags) []
  = ([Info demo_host (s2g "msg");
      OutLine (statusLine demo_host (s2g "msg") (mkCmdResult 7 false [] []) DefaultCmdFlags)],
     Returned (mkCmdResult 7 false [] [])) /\
  (Success (mkCmdResult 7 false [] []) = true <->
   launched (fst (execSystemCommand demo_host (s2g "sh -c 'exit 7'") DefaultCmdFlags)) = true /\
   In (ExitCode (mkCmdResult 7 false [] [])) (ValidExitCodes DefaultCmdFlags)).
Proof.
  split.
  - vm_compute. reflexivity.
  - apply (RunCmd_success_iff_valid demo_host (s2g "sh -c 'exit 7'") (s2g "msg")
             DefaultCmdFlags []
             [Info demo_host (s2g "msg");
              OutLine (statusLine demo_host (s2g "msg") (mkCmdResult 7 false [] [])
                         DefaultCmdFlags)]
             (mkCmdResult 7 false [] [])).
    vm_compute. reflexivity.
Defined.

(** C2.  An empty or white-space-only command builds no [exec.Cmd] and
    yields [ExitCode = 1], [Success = false], [Error = "empty command"]. *)
Theorem execSystemCommand_blank h command flags :
  forallb IsSpace command = true ->
  execSystemCommand h command flags = (None, launchFailure (s2g "empty command")).
Proof.
  intros H. unfold execSystemCommand. rewrite (TrimSpace_all_space command H). reflexivity.
Qed.

Lemma execSystemCommand_blank_witness :
  forallb IsSpace [32; 9; 10; 160; 12288] = true /\
  execSystemCommand demo_host [32; 9; 10; 160; 12288] DefaultCmdFlags
  = (None, launchFailure (s2g "empty command")).
Proof.
  split; [reflexivity|].
  apply (execSystemCommand_blank demo_host [32; 9; 10; 160; 12288] DefaultCmdFlags).
  reflexivity.
Defined.

(** C3 (code defect).  [RunCmdSilentStrict] sets [Strict] but also
    clears [PrintStatus], and [parseStatus] returns before reaching
    [os.Exit]: a command exiting with 7 makes [RunCmdSilentStrict] return
    normally, while [RunCmdStrict] (status printed) exits with 7. *)
Theorem RunCmdSilentStrict_returns_on_failure :
  snd (RunCmdSilentStrict demo_host (s2g "sh -c 'exit 7'") (s2g "msg") [])
  = Returned (mkCmdResult 7 false [] []) /\
  Strict (with_print DefaultCmdFlags true false false false false) = true /\
  snd (RunCmdStrict demo_host (s2g "sh -c 'exit 7'") (s2g "msg") []) = Exited 7.
Proof. vm_compute. repeat split. Qed.

(** C5.  In pass-through mode ([DecorateOutput = false]) the result's
    [Output] is always empty; the [exec.Cmd], if one is built, has its
    stdin, stdout and stderr connected to the host's, and once started
    its [Error] is empty too. *)
Theorem passthrough_no_capture h command flags c r :
  DecorateOutput flags = false ->
  execSystemCommand h command flags = (c, r) ->
  Output r = [] /\
  (forall cmd, c = Some cmd ->
     Stdin cmd = Some HostStdin /\ Stdout cmd = Some HostStdout /\
     Stderr cmd = Some HostStderr /\ (Started cmd = true -> Error r = [])).
Proof.
  intros Hd He.
  destruct (execSystemCommand_spec h command flags c r He)
    as [[-> ->] | (program & args & cmd & _ & _ & -> & Hx)].
  - split; [reflexivity | discriminate].
  - destruct (execCommand_facts h program args flags cmd r Hx) as (_ & Hfail & Hok & Hio).
    rewrite Hd in Hok. destruct (Hio Hd) as (Hi & Ho & Hr).
    split.
    + destruct (Started cmd) eqn:Hs.
      * apply Hok. reflexivity.
      * destruct (Hfail eq_refl) as (e & -> & _). reflexivity.
    + intros cmd' Hc. injection Hc as <-. repeat split; auto.
      intros Hs. apply Hok, Hs.
Qed.

Lemma passthrough_no_capture_witness :
  execSystemCommand demo_host (s2g "echo hello") DefaultCmdFlags
  = (Some {| Path := s2g "echo"; Args := [s2g "echo"; s2g "hello"];
             Stdin := Some HostStdin; Stdout := Some HostStdout; Stderr := Some HostStderr;
             Started := true |},
     mkCmdResult 0 true [] []) /\
  Output (mkCmdResult 0 true [] []) = [].
Proof.
  split; [vm_compute; reflexivity|].
  apply (passthrough_no_capture demo_host (s2g "echo hello") DefaultCmdFlags
           (Some {| Path := s2g "echo"; Args := [s2g "echo"; s2g "hello"];
                    Stdin := Some HostStdin; Stdout := Some HostStdout;
                    Stderr := Some HostStderr; Started := true |})
           (mkCmdResult 0 true [] [])); vm_compute; reflexivity.
Defined.

(** C6 (corrected).  Counterexample: in pipe-capture mode a command that
    starts, writes "oops" on stderr and exits 0 yields [Error = "oops\n"]. *)
Lemma C6_stderr_in_error :
  match execSystemCommand demo_host (s2g "sh -c 'echo oops >&2'") capture_flags with
  | (Some cmd, r) => Started cmd = true /\ Success r = true /\ Error r = s2g "oops" ++ [10]
  | (None, _) => False
  end.
Proof. vm_compute. repeat split. Qed.

(** C6 (amended).  For a command that started, [Error] is empty in
    pass-through mode and is the captured stderr in pipe-capture mode;
    otherwise it is "empty command" or the error of the pipe creation or
    of [Start]. *)
Theorem error_field_spec h command flags c r :
  execSystemCommand h command flags = (c, r) ->
  (launched c = true ->
     exists cmd, c = Some cmd /\
       Error r = (if DecorateOutput flags
                  then pump (firstn (stderr_read (proc_of h cmd)) (stderr_data (proc_of h cmd)))
                  else [])) /\
  (launched c = false ->
     Error r = s2g "empty command" \/
     exists cmd, c = Some cmd /\
       (stdout_pipe_err (proc_of h cmd) = Some (Error r) \/
        stderr_pipe_err (proc_of h cmd) = Some (Error r) \/
        start_err (proc_of h cmd) = Some (Error r))).
Proof.
  intros He.
  destruct (execSystemCommand_spec h command flags c r He)
    as [[-> ->] | (program & args & cmd & _ & _ & -> & Hx)].
  - split; [discriminate | intros _; left; reflexivity].
  - destruct (execCommand_facts h program args flags cmd r Hx) as (Hp & Hfail & Hok & _).
    cbn [launched]. split.
    + intros Hs. exists cmd. split; [reflexivity|]. rewrite Hp. apply Hok, Hs.
    + intros Hs. right. exists cmd. split; [reflexivity|]. rewrite Hp.
      destruct (Hfail Hs) as (e & -> & He'). exact He'.
Qed.

Lemma error_field_spec_witness :
  execSystemCommand demo_host (s2g "sh -c 'echo oops >&2'") capture_flags
  = (Some {| Path := s2g "sh"; Args := [s2g "sh"; s2g "-c"; s2g "echo oops >&2"];
             Stdin := None; Stdout := Some PipeToParent; Stderr := Some PipeToParent;
             Started := true |},
     mkCmdResult 0 true [] (s2g "oops" ++ [10])) /\
  exists cmd, Some {| Path := s2g "sh"; Args := [s2g "sh"; s2g "-c"; s2g "echo oops >&2"];
                      Stdin := None; Stdout := Some PipeToParent; Stderr := Some PipeToParent;
                      Started := true |} = Some cmd /\
    Error (mkCmdResult 0 true [] (s2g "oops" ++ [10]))
    = (if DecorateOutput capture_flags
       then pump (firstn (stderr_read (proc_of demo_host cmd))
                         (stderr_data (proc_of demo_host cmd)))
       else []).
Proof.
  split; [vm_compute; reflexivity|].
  apply (error_field_spec demo_host (s2g "sh -c 'echo oops >&2'") capture_flags); vm_compute;
    reflexivity.
Defined.

(** C9.  When no process is started (no program after parsing, or a
    pipe or [Start] failure), the result has [ExitCode = 1] and
    [Success = false], whatever [flags.ValidExitCodes] holds. *)
Theorem launch_failure_exit_1 h command flags c r :
  execSystemCommand h command flags = (c, r) ->
  launched c = false ->
  ExitCode r = 1 /\ Success r = false.
Proof.
  intros He Hl.
  destruct (execSystemCommand_spec h command flags c r He)
    as [[-> ->] | (program & args & cmd & _ & _ & -> & Hx)].
  - split; reflexivity.
  - destruct (execCommand_facts h program args flags cmd r Hx) as (_ & Hfail & _ & _).
    destruct (Hfail Hl) as (e & -> & _). split; reflexivity.
Qed.

Lemma launch_failure_exit_1_witness :
  In 1 (ValidExitCodes workspace_new_flags) /\
  execSystemCommand demo_host (s2g "'' " ++ [34; 34; 32]) workspace_new_flags
  = (None, launchFailure (s2g "empty command")) /\
  ExitCode (launchFailure (s2g "empty command")) = 1 /\
  Success (launchFailure (s2g "empty command")) = false.
Proof.
  split; [right; left; reflexivity|]. split; [vm_compute; reflexivity|].
  apply (launch_failure_exit_1 demo_host (s2g "'' " ++ [34; 34; 32]) workspace_new_flags None).
  - vm_compute. reflexivity.
  - reflexivity.
Defined.

(** C10.  A nil [flags] argument behaves exactly as [DefaultCmdFlags()],
    whose values are the ones below. *)
Theorem RunCmd_nil_flags h command message fm :
  RunCmd h command message None fm = RunCmd h command message (Some DefaultCmdFlags) fm /\
  DefaultCmdFlags =
  {| Strict := false; PrintCmd := false; DecorateOutput := false; PrintOutput := true;
     PrintMessage := true; PrintStatus := true; PrintOutcome := false;
     StrictMessage := s2g "aborting..."; NoStrictMessage := s2g "continuing...";
     ValidExitCodes := [0] |}.
Proof. split; reflexivity. Qed.

(** ** Captured output *)

Lemma scanLines_from_cons (cur : gostring) (c : Z) (data : gostring) :
  scanLines_from cur (c :: data) =
  if c =? 10 then
    if MaxScanTokenSize <=? golen cur then [] else dropCR cur :: scanLines_from [] data
  else scanLines_from (cur ++ [c]) data.
Proof. reflexivity. Qed.

Lemma scanLines_from_app (cur l rest : gostring) :
  existsb (Z.eqb 10) l = false ->
  scanLines_from cur (l ++ rest) = scanLines_from (cur ++ l) rest.
Proof.
  revert cur. induction l as [|x l IH]; intros cur Hl.
  - rewrite app_nil_r. reflexivity.
  - change (existsb (Z.eqb 10) (x :: l)) with ((10 =? x) || existsb (Z.eqb 10) l) in Hl.
    apply orb_false_iff in Hl as [Hx Hl]. rewrite Z.eqb_sym in Hx.
    rewrite <- app_comm_cons, scanLines_from_cons, Hx, IH by exact Hl.
    rewrite <- app_assoc. reflexivity.
Qed.

Lemma scanLines_lines (ls : list gostring) :
  forallb line_okb ls = true ->
  scanLines (lines_text ls) = map dropCR ls.
Proof.
  unfold scanLines, lines_text.
  induction ls as [|l ls IH]; cbn; [reflexivity|].
  intros H. apply andb_prop in H as [Hl Hls].
  unfold line_okb in Hl. apply andb_prop in Hl as [Hnl Hlen].
  apply negb_true_iff in Hnl. apply Z.ltb_lt in Hlen.
  rewrite <- app_assoc. cbn [app]. rewrite scanLines_from_app by exact Hnl.
  rewrite scanLines_from_cons. cbn [app Z.eqb].
  destruct (MaxScanTokenSize <=? golen l) eqn:Hm; [apply Z.leb_le in Hm; lia|].
  rewrite IH by exact Hls. reflexivity.
Qed.

Lemma pump_lines (ls : list gostring) (n : nat) :
  forallb line_okb ls = true -> (List.length (lines_text ls) <= n)%nat ->
  pump (firstn n (lines_text ls)) = List.concat (map (fun l => dropCR l ++ [10]) ls).
Proof.
  intros Hok Hn. unfold pump. rewrite firstn_all2 by exact Hn.
  rewrite scanLines_lines by exact Hok. rewrite map_map. reflexivity.
Qed.

(** C4 (corrected).  Counterexample: a command printing the line "a" CR
    (newline-terminated) is captured as "a\n": the carriage return is
    removed by the scanner. *)
Lemma C4_crlf_line_captured_without_cr :
  match execSystemCommand demo_host (s2g "printf 'a\r\n'") capture_flags with
  | (Some cmd, r) => Started cmd = true /\ stdout_data (proc_of demo_host cmd) = [97; 13; 10]
                     /\ Output r = [97; 10]
  | (None, _) => False
  end.
Proof. vm_compute. repeat split. Qed.

(** C4 (amended).  In pipe-capture mode, for a started command whose
    stdout and stderr are newline-terminated lines [ls] and [es], each
    shorter than 64 KiB, and whose pipes were read to the end before
    [Wait] closed them, [Output] is the lines of [ls] in order, each with
    a trailing CR dropped and followed by a newline, and [Error] likewise
    for [es]. *)
Theorem capture_mode_lines h command flags c r ls es :
  DecorateOutput flags = true ->
  execSystemCommand h command flags = (Some c, r) ->
  Started c = true ->
  stdout_data (proc_of h c) = lines_text ls ->
  stderr_data (proc_of h c) = lines_text es ->
  forallb line_okb ls = true -> forallb line_okb es = true ->
  (List.length (stdout_data (proc_of h c)) <= stdout_read (proc_of h c))%nat ->
  (List.length (stderr_data (proc_of h c)) <= stderr_read (proc_of h c))%nat ->
  Output r = List.concat (map (fun l => dropCR l ++ [10]) ls) /\
  Error r = List.concat (map (fun l => dropCR l ++ [10]) es) /\
  ExitCode r = exitCodeOf (wait_res (proc_of h c)) /\
  Success r = validCode_loop (exitCodeOf (wait_res (proc_of h c))) (ValidExitCodes flags).
Proof.
  intros Hd He Hs Hout Herr Hls Hes Hro Hre.
  destruct (execSystemCommand_spec h command flags (Some c) r He)
    as [[Hc _] | (program & args & cmd & _ & _ & Hc & Hx)]; [discriminate|].
  injection Hc as <-.
  destruct (execCommand_facts h program args flags c r Hx) as (Hp & _ & Hok & _).
  rewrite Hp in Hout, Herr, Hro, Hre |- *.
  destruct (Hok Hs) as (Hcode & Hsucc & Ho & Herr'). rewrite Hd in Ho, Herr'.
  rewrite Hout in Hro, Ho. rewrite Herr in Hre, Herr'.
  rewrite Ho, Herr', pump_lines, pump_lines by assumption. auto.
Qed.

Lemma capture_mode_lines_witness :
  execSystemCommand demo_host (s2g "echo hello") capture_flags
  = (Some echo_hello_cmd, mkCmdResult 0 true (s2g "hello" ++ [10]) []) /\
  Output (mkCmdResult 0 true (s2g "hello" ++ [10]) []) = s2g "hello" ++ [10] /\
  ExitCode (mkCmdResult 0 true (s2g "hello" ++ [10]) []) = 0 /\
  Success (mkCmdResult 0 true (s2g "hello" ++ [10]) []) = true.
Proof.
  split; [vm_compute; reflexivity|].
  destruct (capture_mode_lines demo_host (s2g "echo hello") capture_flags echo_hello_cmd
              (mkCmdResult 0 true (s2g "hello" ++ [10]) []) [s2g "hello"] [])
    as (Ho & _ & Hc & Hs); try (vm_compute; reflexivity); try (vm_compute; lia).
  split; [exact Ho|]. split; [exact Hc | exact Hs].
Defined.

(** ** Status line *)

Lemma strip_from_sep (st : astate) (a : gostring) (c : Z) (b : gostring) :
  sep_char c = true ->
  strip_from st (a ++ c :: b) = strip_from st a ++ c :: strip_from ANormal b.
Proof.
  intros Hc. unfold sep_char in Hc.
  apply andb_prop in Hc as [Hc Hm]. apply andb_prop in Hc as [Hc Hp].
  apply andb_prop in Hc as [He Hb].
  apply negb_true_iff in He, Hb, Hp, Hm.
  revert st. induction a as [|x a IH]; intros st.
  - cbn [app strip_from]. destruct st; cbn [astep apending]; rewrite ?Hb, ?Hp, ?Hm;
      unfold astep_normal; rewrite He; cbn [fst snd app strip_from apending]; try reflexivity.
    rewrite <- app_assoc. reflexivity.
  - cbn [app strip_from]. rewrite IH, app_assoc. reflexivity.
Qed.

Lemma strip_from_spaces (n : nat) (y : gostring) :
  strip_from ANormal (repeat 32 n ++ y) = repeat 32 n ++ strip_from ANormal y.
Proof. induction n as [|n IH]; cbn; [reflexivity | rewrite IH; reflexivity]. Qed.

Lemma golen_ascii (s : gostring) :
  is_ascii s = true -> golen s = Z.of_nat (List.length s).
Proof.
  unfold is_ascii, golen. induction s as [|r s IH]; cbn [fold_right forallb List.length];
    [reflexivity|].
  intros H. apply andb_prop in H as [Hr Hs].
  rewrite (IH Hs). unfold utf8_width. rewrite Hr. lia.
Qed.

Lemma strip_bracketed (e : gostring) :
  stripAnsiCodes ([91] ++ e ++ [93]) = 91 :: stripAnsiCodes e ++ [93].
Proof.
  unfold stripAnsiCodes. change ([91] ++ e ++ [93]) with ((91 :: e) ++ 93 :: []).
  rewrite (strip_from_sep ANormal (91 :: e) 93 []) by reflexivity. reflexivity.
Qed.

Lemma strip_Gray (x : gostring) : strip_from ANormal (Gray ++ x) = strip_from ANormal x.
Proof. reflexivity. Qed.

Lemma strip_Reset_space (x : gostring) :
  strip_from ANormal (Reset ++ 32 :: x) = 32 :: strip_from ANormal x.
Proof. reflexivity. Qed.

Lemma strip_statusIndicator (result : CmdResult) :
  strip_from ANormal (32 :: statusIndicator result) =
  [32; 91; 32; (if Success result then 10003 else 10007); 32; 93].
Proof. unfold statusIndicator. destruct (Success result); reflexivity. Qed.

Lemma statusLine_shape h message result flags :
  PrintOutcome flags = false ->
  statusLine h message result flags =
  AddEmphasisGray (s2g "[" ++ GetEntrypointScript h ++ s2g "]") ++ s2g " " ++ message
  ++ spaces (paddingWidth h message) ++ s2g " " ++ statusIndicator result.
Proof. intros Hpo. unfold statusLine. rewrite Hpo. reflexivity. Qed.

(** The ANSI-stripped status line, without the outcome annotation. *)
Lemma strip_status_line h message result flags :
  PrintOutcome flags = false ->
  stripAnsiCodes (statusLine h message result flags) =
  91 :: stripAnsiCodes (GetEntrypointScript h) ++ 93 :: 32 :: stripAnsiCodes message
  ++ 32 :: repeat 32 (Z.to_nat (paddingWidth h message) - 1)
  ++ [32; 91; 32; (if Success result then 10003 else 10007); 32; 93].
Proof.
  intros Hpo. rewrite statusLine_shape by exact Hpo.
  assert (Hpw : (1 <= Z.to_nat (paddingWidth h message))%nat).
  { unfold paddingWidth. destruct (_ <? 1) eqn:H; [cbn; lia|]. apply Z.ltb_ge in H. lia. }
  unfold spaces. destruct (Z.to_nat (paddingWidth h message)) as [|k]; [lia|].
  replace (S k - 1)%nat with k by lia.
  set (e := GetEntrypointScript h).
  unfold AddEmphasisGray, stripAnsiCodes. rewrite <- !app_assoc. rewrite strip_Gray.
  change (s2g "[") with [91]. change (s2g "]") with [93]. change (s2g " ") with [32].
  cbn [app repeat].
  change (91 :: e ++ 93 :: Reset ++ 32 :: message ++ 32 :: repeat 32 k ++ 32 :: statusIndicator result)
    with ((91 :: e) ++ 93 :: Reset ++ 32 :: message ++ 32 :: repeat 32 k ++ 32 :: statusIndicator result).
  rewrite (strip_from_sep ANormal (91 :: e)) by reflexivity.
  rewrite strip_Reset_space.
  rewrite (strip_from_sep ANormal message) by reflexivity.
  rewrite strip_from_spaces, strip_statusIndicator. reflexivity.
Qed.

Lemma visual_length_ascii (s : gostring) :
  is_ascii (stripAnsiCodes s) = true ->
  getVisualLength s = Z.of_nat (List.length (stripAnsiCodes s)).
Proof. intros H. unfold getVisualLength. apply golen_ascii, H. Qed.

(** C7 (corrected).  Counterexample: with [PrintOutcome] set, the status
    line of a successful command with message "msg" has the outcome
    " (done)" after the aligned part: 127 characters once stripped. *)
Lemma C7_outcome_exceeds_width :
  match fst (parseStatus demo_host (s2g "msg") (mkCmdResult 0 true [] []) outcome_flags []) with
  | [OutLine line] => List.length (stripAnsiCodes line) = 127%nat
  | _ => False
  end.
Proof. vm_compute. reflexivity. Qed.

(** C7 (amended).  With [PrintOutcome] off, and a message and executable
    name whose ANSI-stripped text is ASCII, the status line [parseStatus]
    prints has, once stripped, exactly [totalWidth] = 120 characters when
    the padding computed from the visual lengths E (of "[name]") and M
    (of the message) is at least one; otherwise the padding is one space
    and the line has E + M + 8 characters. *)
Theorem status_line_width h message result flags fm :
  PrintStatus flags = true ->
  PrintOutcome flags = false ->
  is_ascii (stripAnsiCodes message) = true ->
  is_ascii (stripAnsiCodes (GetEntrypointScript h)) = true ->
  hd_error (fst (parseStatus h message result flags fm))
  = Some (OutLine (statusLine h message result flags)) /\
  Z.of_nat (List.length (stripAnsiCodes (statusLine h message result flags))) =
  (let E := getVisualLength (s2g "[" ++ GetEntrypointScript h ++ s2g "]") in
   let M := getVisualLength message in
   if totalWidth - E - 1 - M - 1 - 5 <? 1 then E + M + 8 else totalWidth).
Proof.
  intros Hps Hpo Hm He. split.
  - unfold parseStatus. rewrite Hps. cbn [negb].
    destruct (Success result); reflexivity.
  - rewrite strip_status_line by exact Hpo.
    assert (HE : getVisualLength (s2g "[" ++ GetEntrypointScript h ++ s2g "]")
                 = Z.of_nat (List.length (stripAnsiCodes (GetEntrypointScript h))) + 2).
    { change (s2g "[") with [91]. change (s2g "]") with [93].
      unfold getVisualLength. rewrite strip_bracketed, golen_ascii.
      - rewrite length_cons, length_app. cbn [List.length]. lia.
      - unfold is_ascii in *. cbn [forallb]. rewrite forallb_app, He. reflexivity. }
    rewrite (visual_length_ascii message Hm) in *.
    unfold paddingWidth. cbn zeta. rewrite HE, (visual_length_ascii message Hm).
    set (E := List.length (stripAnsiCodes (GetEntrypointScript h))).
    set (M := List.length (stripAnsiCodes message)).
    rewrite length_cons, !length_app, length_cons, length_cons, length_app,
      length_cons, length_app, repeat_length.
    cbn [List.length]. unfold totalWidth.
    destruct (120 - (Z.of_nat E + 2) - 1 - Z.of_nat M - 1 - 5 <? 1) eqn:Hc.
    + cbn. lia.
    + apply Z.ltb_ge in Hc. rewrite Z2Nat.inj_sub, Z2Nat.inj_sub; lia.
Qed.

Lemma status_line_width_witness :
  let line := statusLine demo_host (s2g "Checking available workspaces")
                (mkCmdResult 0 true [] []) DefaultCmdFlags in
  hd_error (fst (parseStatus demo_host (s2g "Checking available workspaces")
                   (mkCmdResult 0 true [] []) DefaultCmdFlags []))
  = Some (OutLine line) /\
  Z.of_nat (List.length (stripAnsiCodes line)) = 120.
Proof.
  cbn zeta.
  destruct (status_line_width demo_host (s2g "Checking available workspaces")
              (mkCmdResult 0 true [] []) DefaultCmdFlags [])
    as [H1 H2]; try reflexivity.
  split; [exact H1|]. rewrite H2. vm_compute. reflexivity.
Defined.

(** ** Unbalanced quotes *)

Lemma fold_inside_quotes (ps : list gostring) (cur rest : gostring) (q : Z) :
  existsb (Z.eqb q) rest = false ->
  fold_left pc_step rest {| parts := ps; current := cur; inQuotes := true; quoteChar := q |}
  = {| parts := ps; current := cur ++ rest; inQuotes := true; quoteChar := q |}.
Proof.
  revert cur. induction rest as [|c rest IH]; intros cur H.
  - cbn. rewrite app_nil_r. reflexivity.
  - cbn [existsb] in H. apply orb_false_iff in H as [Hc H].
    cbn [fold_left]. unfold pc_step at 2. cbn [inQuotes quoteChar negb andb current parts].
    rewrite Z.eqb_sym, Hc. rewrite IH by exact H. rewrite <- app_assoc. reflexivity.
Qed.

Lemma RunCmd_outcome h command message flags fm :
  let r := snd (execSystemCommand h command flags) in
  snd (RunCmd h command message (Some flags) fm) = Returned r \/
  (snd (RunCmd h command message (Some flags) fm) = Exited (ExitCode r) /\
   Strict flags = true /\ PrintStatus flags = true /\ Success r = false).
Proof.
  cbn zeta. unfold RunCmd, parseStatus.
  destruct (PrintStatus flags), (Success (snd (execSystemCommand h command flags))),
    (Strict flags); cbn; auto.
Qed.

(** C8 (corrected).  Counterexample: in "echo 'it x" the dangling quote
    is neither kept as a literal nor reported: it is dropped, "it x"
    becomes one argument, and the command runs with an empty [Error]. *)
Lemma C8_dangling_quote_dropped :
  parseCommand (s2g "echo 'it x") = (s2g "echo", [s2g "it x"]) /\
  match snd (RunCmd demo_host (s2g "echo 'it x") (s2g "msg") None []) with
  | Returned r => Error r = [] /\ Success r = true
  | Exited _ => False
  end.
Proof. vm_compute. repeat split. Qed.

(** C8 (amended).  [parseCommand] is total: an opening quote that is not
    closed is dropped and everything after it, spaces and the other kind
    of quote included, is appended to the current token; [RunCmd] then
    returns the result of [execSystemCommand], or exits with its exit
    code exactly when it failed in strict mode with the status printed. *)
Theorem parseCommand_dangling_quote h message flags fm command pre q rest :
  TrimSpace command = pre ++ q :: rest ->
  (q =? 34) || (q =? 39) = true ->
  existsb (Z.eqb q) rest = false ->
  inQuotes (fold_left pc_step pre pinit) = false ->
  parseCommand command =
  parseCommand_finish
    {| parts := parts (fold_left pc_step pre pinit);
       current := current (fold_left pc_step pre pinit) ++ rest;
       inQuotes := true; quoteChar := q |} /\
  (let r := snd (execSystemCommand h command flags) in
   snd (RunCmd h command message (Some flags) fm) = Returned r \/
   (snd (RunCmd h command message (Some flags) fm) = Exited (ExitCode r) /\
    Strict flags = true /\ PrintStatus flags = true /\ Success r = false)).
Proof.
  intros Ht Hq Hr Hin. split; [|apply RunCmd_outcome].
  unfold parseCommand. rewrite Ht.
  replace (is_empty (pre ++ q :: rest)) with false by (destruct pre; reflexivity).
  rewrite fold_left_app. cbn [fold_left].
  set (st := fold_left pc_step pre pinit) in *.
  unfold pc_step at 2. rewrite Hin, Hq. cbn [negb andb].
  rewrite fold_inside_quotes by exact Hr. reflexivity.
Qed.

Lemma parseCommand_dangling_quote_witness :
  parseCommand (s2g "echo 'it x") =
  parseCommand_finish
    {| parts := parts (fold_left pc_step (s2g "echo ") pinit);
       current := current (fold_left pc_step (s2g "echo ") pinit) ++ s2g "it x";
       inQuotes := true; quoteChar := 39 |} /\
  (let r := snd (execSystemCommand demo_host (s2g "echo 'it x") DefaultCmdFlags) in
   snd (RunCmd demo_host (s2g "echo 'it x") (s2g "msg") (Some DefaultCmdFlags) []) = Returned r \/
   (snd (RunCmd demo_host (s2g "echo 'it x") (s2g "msg") (Some DefaultCmdFlags) [])
    = Exited (ExitCode r) /\
    Strict DefaultCmdFlags = true /\ PrintStatus DefaultCmdFlags = true /\ Success r = false)).
Proof.
  apply (parseCommand_dangling_quote demo_host (s2g "msg") DefaultCmdFlags []
           (s2g "echo 'it x") (s2g "echo ") 39 (s2g "it x")); vm_compute; reflexivity.
Defined.

(** * Further properties of the runner and of its caller *)

(** ** Helper lemmas *)

Lemma gs_eqb_spec (a b : gostring) : gs_eqb a b = true <-> a = b.
Proof. unfold gs_eqb. destruct (list_eq_dec Z.eq_dec a b); split; congruence. Qed.

Lemma gs_eqb_refl (a : gostring) : gs_eqb a a = true.
Proof. apply gs_eqb_spec. reflexivity. Qed.

Lemma gs_eqb_neq (a b : gostring) : a <> b -> gs_eqb a b = false.
Proof. intros H. destruct (gs_eqb a b) eqn:E; [apply gs_eqb_spec in E; congruence | reflexivity]. Qed.

Lemma pc_step_parts_nonempty (st : pstate) (c : Z) :
  Forall (fun x => x <> []) (parts st) -> Forall (fun x => x <> []) (parts (pc_step st c)).
Proof.
  intros H. unfold pc_step.
  destruct (negb (inQuotes st) && ((c =? 34) || (c =? 39))); [exact H|].
  destruct (inQuotes st && (c =? quoteChar st)); [exact H|].
  destruct (negb (inQuotes st) && (c =? 32)); [|exact H].
  destruct (is_empty (current st)) eqn:He; cbn; [exact H|].
  apply Forall_app. split; [exact H|]. constructor; [|constructor].
  intros E. rewrite E in He. discriminate.
Qed.

Lemma fold_parts_nonempty (l : gostring) (st : pstate) :
  Forall (fun x => x <> []) (parts st) ->
  Forall (fun x => x <> []) (parts (fold_left pc_step l st)).
Proof.
  revert st. induction l as [|c l IH]; intros st H; [exact H|].
  cbn. apply IH, pc_step_parts_nonempty, H.
Qed.

Lemma fold_plain (x : gostring) (ps : list gostring) (cur : gostring) :
  forallb (fun c => negb (c =? 32) && negb (c =? 34) && negb (c =? 39)) x = true ->
  fold_left pc_step x (mkPstate ps cur false 0) = mkPstate ps (cur ++ x) false 0.
Proof.
  revert cur. induction x as [|c x IH]; intros cur H.
  - rewrite app_nil_r. reflexivity.
  - cbn [forallb] in H. apply andb_prop in H as [Hc H].
    apply andb_prop in Hc as [Hc H39]. apply andb_prop in Hc as [H32 H34].
    apply negb_true_iff in H32, H34, H39.
    cbn [fold_left]. unfold pc_step at 2. cbn [inQuotes current parts quoteChar negb andb].
    rewrite H34, H39, H32. cbn [orb].
    rewrite IH by exact H. rewrite <- app_assoc. reflexivity.
Qed.

Lemma fold_dq (x : gostring) (ps : list gostring) (cur : gostring) :
  existsb (Z.eqb 34) x = false ->
  fold_left pc_step ([34] ++ x ++ [34]) (mkPstate ps cur false 0) = mkPstate ps (cur ++ x) false 0.
Proof.
  intros H. rewrite !fold_left_app. cbn [fold_left].
  replace (pc_step (mkPstate ps cur false 0) 34) with (mkPstate ps cur true 34)
    by reflexivity.
  rewrite fold_inside_quotes by exact H. reflexivity.
Qed.

Lemma fold_space (ps : list gostring) (cur : gostring) :
  cur <> [] ->
  fold_left pc_step [32] (mkPstate ps cur false 0) = mkPstate (ps ++ [cur]) [] false 0.
Proof.
  intros H. cbn. unfold pc_step. cbn.
  destruct cur; [congruence | reflexivity].
Qed.

(** [join_space] of encoded words is read back word by word. *)
Lemma fold_join_space (enc : gostring -> gostring) (P : gostring -> Prop)
  (Henc : forall x ps cur, P x ->
     fold_left pc_step (enc x) (mkPstate ps cur false 0) = mkPstate ps (cur ++ x) false 0) :
  forall ws w ps, Forall P (w :: ws) -> Forall (fun x => x <> []) (w :: ws) ->
  parseCommand_finish (fold_left pc_step (join_space (map enc (w :: ws))) (mkPstate ps [] false 0))
  = parseCommand_finish (mkPstate (ps ++ w :: ws) [] false 0).
Proof.
  induction ws as [|w' ws IH]; intros w ps HP Hne.
  - inversion HP; subst. inversion Hne; subst. cbn [map join_space].
    rewrite Henc by assumption. cbn [app].
    unfold parseCommand_finish. cbn [current parts].
    destruct w; [congruence|]. reflexivity.
  - inversion HP as [|? ? Hw HP']; subst. inversion Hne as [|? ? Hw0 Hne']; subst.
    change (join_space (map enc (w :: w' :: ws)))
      with (enc w ++ [32] ++ join_space (map enc (w' :: ws))).
    rewrite !fold_left_app, Henc by assumption. cbn [app].
    rewrite fold_space by exact Hw0.
    rewrite (IH w' (ps ++ [w]) HP' Hne'). rewrite <- app_assoc. reflexivity.
Qed.

Lemma TrimLeftSpace_id (s : gostring) :
  match s with [] => True | c :: _ => IsSpace c = false end -> TrimLeftSpace s = s.
Proof. destruct s as [|c s]; cbn; [reflexivity|]. intros ->. reflexivity. Qed.

Lemma TrimSpace_id (s : gostring) :
  match s with [] => True | c :: _ => IsSpace c = false end ->
  match rev s with [] => True | c :: _ => IsSpace c = false end ->
  TrimSpace s = s.
Proof.
  intros H1 H2. unfold TrimSpace. rewrite (TrimLeftSpace_id s H1).
  rewrite (TrimLeftSpace_id (rev s) H2). apply rev_involutive.
Qed.

Lemma parseCommand_of_fold (s : gostring) :
  TrimSpace s = s -> s <> [] ->
  parseCommand s = parseCommand_finish (fold_left pc_step s pinit).
Proof.
  intros Ht Hne. unfold parseCommand. rewrite Ht.
  destruct s; [congruence | reflexivity].
Qed.

Lemma join_space_dq_last (w : gostring) (ws : list gostring) :
  exists pre, join_space (map (fun x => [34] ++ x ++ [34]) (w :: ws)) = pre ++ [34].
Proof.
  revert w. induction ws as [|w' ws IH]; intros w.
  - exists ([34] ++ w). reflexivity.
  - destruct (IH w') as [pre Hpre].
    exists (([34] ++ w ++ [34]) ++ [32] ++ pre).
    change (join_space (map (fun x => [34] ++ x ++ [34]) (w :: w' :: ws)))
      with (([34] ++ w ++ [34]) ++ [32] ++ join_space (map (fun x => [34] ++ x ++ [34]) (w' :: ws))).
    rewrite Hpre. rewrite !app_assoc. reflexivity.
Qed.

Lemma forallb_Forall_word {A} (f : A -> bool) (l : list A) :
  forallb f l = true -> Forall (fun x => f x = true) l.
Proof. intros H. apply Forall_forall. intros x Hx. exact (proj1 (forallb_forall f l) H x Hx). Qed.


Lemma quotable_word_parts (l : list gostring) :
  forallb quotable_word l = true ->
  Forall (fun x => existsb (Z.eqb 34) x = false) l /\ Forall (fun x => x <> []) l.
Proof.
  induction l as [|x l IH]; cbn [forallb]; [split; constructor|].
  intros H. apply andb_prop in H as [Hx Hl]. destruct (IH Hl) as [H1 H2].
  unfold quotable_word in Hx. apply andb_prop in Hx as [He Hc].
  apply negb_true_iff in Hc.
  split; constructor; auto. destruct x; [discriminate | congruence].
Qed.

(** ** parseCommand *)

(** X1.  [parseCommand] never returns an empty token: either it returns
    no program and no arguments, or the program and every argument are
    non-empty (an empty quoted string such as "" yields no token). *)
Theorem parseCommand_tokens_nonempty (cmdStr p : gostring) (args : list gostring) :
  parseCommand cmdStr = (p, args) ->
  (p = [] /\ args = []) \/ Forall (fun x => x <> []) (p :: args).
Proof.
  unfold parseCommand. destruct (is_empty (TrimSpace cmdStr)).
  - intros H. injection H as <- <-. left. auto.
  - unfold parseCommand_finish.
    pose proof (fold_parts_nonempty (TrimSpace cmdStr) pinit (Forall_nil _)) as Hf.
    set (st := fold_left pc_step (TrimSpace cmdStr) pinit) in *.
    destruct (is_empty (current st)) eqn:He; cbn [negb].
    + destruct (parts st) as [|x l]; intros H; injection H as <- <-;
        [left; auto | right; exact Hf].
    + assert (Hall : Forall (fun x => x <> []) (parts st ++ [current st])).
      { apply Forall_app. split; [exact Hf|]. constructor; [|constructor].
        intros E. rewrite E in He. discriminate. }
      destruct (parts st ++ [current st]) as [|x l]; intros H; injection H as <- <-;
        [left; auto | right; exact Hall].
Qed.

Lemma parseCommand_tokens_nonempty_witness :
  parseCommand (s2g "a " ++ [34; 34] ++ s2g " b") = (s2g "a", [s2g "b"]) /\
  ((s2g "a" = [] /\ [s2g "b"] = []) \/ Forall (fun x => x <> []) (s2g "a" :: [s2g "b"])).
Proof.
  split; [vm_compute; reflexivity|].
  apply (parseCommand_tokens_nonempty (s2g "a " ++ [34; 34] ++ s2g " b")).
  vm_compute. reflexivity.
Defined.



(** X3.  Non-empty words without double quotes, each put between double
    quotes and joined by single spaces, are read back as the same words:
    spaces, single quotes and other white space inside the quotes are
    kept and the quotes themselves dropped. *)
Theorem parseCommand_quoted_words (w : gostring) (ws : list gostring) :
  forallb quotable_word (w :: ws) = true ->
  parseCommand (join_space (map (fun x => [34] ++ x ++ [34]) (w :: ws))) = (w, ws).
Proof.
  intros Hw. destruct (quotable_word_parts _ Hw) as [HP Hne].
  set (s := join_space (map (fun x => [34] ++ x ++ [34]) (w :: ws))).
  assert (Hhd : exists rest, s = 34 :: rest).
  { unfold s. destruct ws; cbn [map join_space]; eexists; reflexivity. }
  destruct Hhd as [rest Hrest].
  destruct (join_space_dq_last w ws) as [pre Hpre]. fold s in Hpre.
  rewrite parseCommand_of_fold.
  - change pinit with (mkPstate [] [] false 0). unfold s.
    rewrite (fold_join_space (fun x => [34] ++ x ++ [34])
               (fun x => existsb (Z.eqb 34) x = false)); [reflexivity | | exact HP | exact Hne].
    intros x ps cur Hx. apply fold_dq, Hx.
  - apply TrimSpace_id.
    + rewrite Hrest. reflexivity.
    + rewrite Hpre, rev_app_distr. reflexivity.
  - rewrite Hrest. discriminate.
Qed.

Lemma parseCommand_quoted_words_witness :
  parseCommand (join_space (map (fun x => [34] ++ x ++ [34]) [s2g "it's"; s2g "a b"]))
  = (s2g "it's", [s2g "a b"]).
Proof.
  apply (parseCommand_quoted_words (s2g "it's") [s2g "a b"]). vm_compute. reflexivity.
Defined.

(** ** printer.go *)

Lemma strip_from_app (x : gostring) (st : astate) :
  exists st' o, strip_from st x = o ++ apending st' /\
    forall y, strip_from st (x ++ y) = o ++ strip_from st' y.
Proof.
  revert st. induction x as [|c x IH]; intros st.
  - exists st, []. split; reflexivity.
  - destruct (IH (snd (astep st c))) as (st' & o & H1 & H2).
    exists st', (fst (astep st c) ++ o). cbn [strip_from app]. split.
    + rewrite H1, app_assoc. reflexivity.
    + intros y. rewrite H2, app_assoc. reflexivity.
Qed.

Lemma strip_from_Reset (st : astate) : strip_from st Reset = apending st.
Proof. destruct st; cbn; rewrite ?app_nil_r; reflexivity. Qed.

Lemma strip_wrapped (t : gostring) :
  strip_from ANormal (t ++ Reset) = strip_from ANormal t.
Proof.
  destruct (strip_from_app t ANormal) as (st' & o & H1 & H2).
  rewrite H2, H1, strip_from_Reset. reflexivity.
Qed.

(** X4.  The colour wrappers are invisible to [stripAnsiCodes], for any
    text (even one holding an unfinished escape sequence): the text
    wrapped by [AddEmphasisBlue], [AddEmphasisRed], [AddEmphasisGreen],
    [AddEmphasisMagenta] or [AddEmphasisGray] strips to the stripped
    text, so [getVisualLength] does not count the colour codes. *)
Theorem stripAnsiCodes_AddEmphasis (t : gostring) :
  stripAnsiCodes (AddEmphasisBlue t) = stripAnsiCodes t /\
  stripAnsiCodes (AddEmphasisRed t) = stripAnsiCodes t /\
  stripAnsiCodes (AddEmphasisGreen t) = stripAnsiCodes t /\
  stripAnsiCodes (AddEmphasisMagenta t) = stripAnsiCodes t /\
  stripAnsiCodes (AddEmphasisGray t) = stripAnsiCodes t /\
  getVisualLength (AddEmphasisBlue t) = getVisualLength t.
Proof.
  unfold getVisualLength, stripAnsiCodes, AddEmphasisBlue, AddEmphasisRed, AddEmphasisGreen,
    AddEmphasisMagenta, AddEmphasisGray.
  rewrite <- !strip_wrapped with (t := t).
  repeat split; reflexivity.
Qed.

(** ** execCommand *)

Lemma pump_newline (d : gostring) : pump d = [] \/ exists o, pump d = o ++ [10].
Proof.
  unfold pump. induction (scanLines d) as [|l ls IH]; cbn [map List.concat]; [left; reflexivity|].
  right. destruct IH as [-> | [o ->]].
  - exists l. rewrite app_nil_r. reflexivity.
  - exists ((l ++ [10]) ++ o). rewrite app_assoc. reflexivity.
Qed.

(** X5.  What [execCommand] captures is newline-terminated: [Output] is
    empty or ends with a newline, and so is [Error] for every command
    that was started (a launch failure puts its error text there). *)
Theorem captured_output_newline_terminated h command flags c r :
  execSystemCommand h command flags = (c, r) ->
  (Output r = [] \/ exists o, Output r = o ++ [10]) /\
  (launched c = true -> Error r = [] \/ exists e, Error r = e ++ [10]).
Proof.
  intros He.
  destruct (execSystemCommand_spec h command flags c r He)
    as [[-> ->] | (program & args & cmd & _ & _ & -> & Hx)].
  - split; [left; reflexivity | discriminate].
  - destruct (execCommand_facts h program args flags cmd r Hx) as (_ & Hfail & Hok & _).
    cbn [launched]. destruct (Started cmd) eqn:Hs.
    + destruct (Hok eq_refl) as (_ & _ & Ho & Herr). rewrite Ho, Herr.
      destruct (DecorateOutput flags); [split; [apply pump_newline | intros; apply pump_newline]|].
      split; [left; reflexivity | intros; left; reflexivity].
    + destruct (Hfail eq_refl) as (e & -> & _). split; [left; reflexivity | discriminate].
Qed.

Lemma captured_output_newline_terminated_witness :
  execSystemCommand demo_host (s2g "echo hello") capture_flags
  = (Some echo_hello_cmd, mkCmdResult 0 true (s2g "hello" ++ [10]) []) /\
  ((Output (mkCmdResult 0 true (s2g "hello" ++ [10]) []) = [] \/
    exists o, Output (mkCmdResult 0 true (s2g "hello" ++ [10]) []) = o ++ [10]) /\
   (launched (Some echo_hello_cmd) = true ->
    Error (mkCmdResult 0 true (s2g "hello" ++ [10]) []) = [] \/
    exists e, Error (mkCmdResult 0 true (s2g "hello" ++ [10]) []) = e ++ [10])).
Proof.
  split; [vm_compute; reflexivity|].
  apply (captured_output_newline_terminated demo_host (s2g "echo hello") capture_flags).
  vm_compute. reflexivity.
Defined.

(** ** RunCmd variants and RunNative *)

(** X6.  [RunCmdInteractive] behaves exactly as [RunCmd] with nil flags:
    its two overrides are the defaults already, so the command runs in
    pass-through mode with the terminal's streams. *)
Theorem RunCmdInteractive_default h command message fm :
  RunCmdInteractive h command message fm = RunCmd h command message None fm /\
  (forall cmd, fst (execSystemCommand h command DefaultCmdFlags) = Some cmd ->
   Stdin cmd = Some HostStdin /\ Stdout cmd = Some HostStdout /\ Stderr cmd = Some HostStderr).
Proof.
  split; [reflexivity|]. intros cmd Hc.
  destruct (execSystemCommand h command DefaultCmdFlags) as [c r] eqn:He. cbn in Hc. subst c.
  destruct (execSystemCommand_spec h command DefaultCmdFlags (Some cmd) r He)
    as [[Hc _] | (program & args & cmd' & _ & _ & Hc & Hx)]; [discriminate|].
  injection Hc as <-.
  destruct (execCommand_facts h program args DefaultCmdFlags cmd r Hx) as (_ & _ & _ & Hio).
  exact (Hio eq_refl).
Qed.



(** X9.  [RunNative] returns the native function's result, except that
    it exits with that result's exit code when the result is not a
    success and both [Strict] and [PrintStatus] are set; with nil flags
    it always returns. *)
Theorem RunNative_outcome h (f : NativeFunc) message flags fm :
  snd (RunNative h f message (Some flags) fm) =
    (if Strict flags && PrintStatus flags && negb (Success (f tt))
     then Exited (ExitCode (f tt)) else Returned (f tt)) /\
  snd (RunNative h f message None fm) = Returned (f tt).
Proof.
  unfold RunNative, parseStatus. cbn [PrintStatus DefaultCmdFlags Strict].
  destruct (PrintStatus flags), (Success (f tt)), (Strict flags); cbn; auto.
Qed.

(** X10.  The native checks: [TestDir] succeeds exactly when the path is
    an existing directory, [TestFile] exactly when it exists and is not
    a directory (so never both on one path), [TestNotEmpty] exactly on
    a non-empty string; each reports success exactly with exit code 0. *)
Theorem native_checks (fs : fsys) (path value : gostring) :
  (Success (TestDir fs path) = true <-> fs path = Some true) /\
  (Success (TestFile fs path) = true <-> fs path = Some false) /\
  ~ (Success (TestDir fs path) = true /\ Success (TestFile fs path) = true) /\
  (Success (TestNotEmpty value) = true <-> value <> []) /\
  Success (TestDir fs path) = (ExitCode (TestDir fs path) =? 0) /\
  Success (TestFile fs path) = (ExitCode (TestFile fs path) =? 0) /\
  Success (TestNotEmpty value) = (ExitCode (TestNotEmpty value) =? 0).
Proof.
  unfold TestDir, TestFile, TestNotEmpty.
  destruct (fs path) as [[|]|]; destruct value; cbn;
    repeat split; intros; try discriminate; try congruence; try tauto; intuition congruence.
Qed.

(** ** manager.go *)

Lemma runCmd_nonstrict h command message flags fm :
  Strict flags = false ->
  exists ev, terraform.runCmd h command message flags fm =
             ([command], ev, terraform.MRet (snd (execSystemCommand h command flags))).
Proof.
  intros Hs. unfold terraform.runCmd.
  destruct (RunCmd_outcome h command message flags fm) as [H | (_ & Hs' & _)];
    [|congruence].
  destruct (RunCmd h command message (Some flags) fm) as [ev o]. cbn in H. subst o.
  exists ev. reflexivity.
Qed.

Lemma runNative_nonstrict h f message flags fm :
  Strict flags = false ->
  exists ev, terraform.runNative h f message flags fm = ([], ev, terraform.MRet (f tt)).
Proof.
  intros Hs. unfold terraform.runNative, RunNative, parseStatus. cbn zeta.
  rewrite Hs. destruct (PrintStatus flags), (Success (f tt)); cbn; eexists; reflexivity.
Qed.

Lemma passthrough_output h command flags :
  DecorateOutput flags = false -> Output (snd (execSystemCommand h command flags)) = [].
Proof.
  intros Hd. destruct (execSystemCommand h command flags) as [c r] eqn:He. cbn [snd].
  destruct (execSystemCommand_spec h command flags c r He)
    as [[-> ->] | (program & args & cmd & _ & _ & -> & Hx)]; [reflexivity|].
  destruct (execCommand_facts h program args flags cmd r Hx) as (_ & Hfail & Hok & _).
  destruct (Started cmd).
  - destruct (Hok eq_refl) as (_ & _ & Ho & _). rewrite Ho, Hd. reflexivity.
  - destruct (Hfail eq_refl) as (e & -> & _). reflexivity.
Qed.

Lemma passthrough_error h command flags :
  DecorateOutput flags = false -> launched (fst (execSystemCommand h command flags)) = true ->
  Error (snd (execSystemCommand h command flags)) = [].
Proof.
  intros Hd. destruct (execSystemCommand h command flags) as [c r] eqn:He. cbn [fst snd].
  destruct (execSystemCommand_spec h command flags c r He)
    as [[-> ->] | (program & args & cmd & _ & _ & -> & Hx)]; [discriminate|].
  destruct (execCommand_facts h program args flags cmd r Hx) as (_ & _ & Hok & _).
  cbn [launched]. intros Hs. destruct (Hok Hs) as (_ & _ & _ & Herr). rewrite Herr, Hd.
  reflexivity.
Qed.

Lemma launched_success h command flags :
  launched (fst (execSystemCommand h command flags)) = true ->
  Success (snd (execSystemCommand h command flags)) =
  validCode_loop (ExitCode (snd (execSystemCommand h command flags))) (ValidExitCodes flags).
Proof.
  destruct (execSystemCommand h command flags) as [c r] eqn:He. cbn [fst snd].
  destruct (execSystemCommand_spec h command flags c r He)
    as [[-> ->] | (program & args & cmd & _ & _ & -> & Hx)]; [discriminate|].
  destruct (execCommand_facts h program args flags cmd r Hx) as (_ & _ & Hok & _).
  cbn [launched]. intros Hs. destruct (Hok Hs) as (Hc & Hsu & _). rewrite Hsu, Hc.
  reflexivity.
Qed.

Lemma ws_scan_empty_line (name : gostring) :
  name <> [] -> terraform.ws_scan name [[]] = None.
Proof.
  intros Hn. cbn. rewrite gs_eqb_neq by congruence. reflexivity.
Qed.

Lemma ReplaceAll_app (x y : gostring) (old : Z) (new : gostring) :
  strings.ReplaceAll (x ++ y) old new = strings.ReplaceAll x old new ++ strings.ReplaceAll y old new.
Proof.
  induction x as [|c x IH]; cbn; [reflexivity|]. rewrite IH, app_assoc. reflexivity.
Qed.

Lemma ReplaceAll_slash (s : gostring) : ~ In 47 (strings.ReplaceAll s 47 (s2g "__")).
Proof.
  induction s as [|c s IH]; cbn; [tauto|].
  rewrite in_app_iff. intros [H|H]; [|exact (IH H)].
  destruct (Z.eqb_spec c 47); cbn in H; intuition lia.
Qed.

Lemma strings_Join_notin (x : Z) (l : list gostring) (sep : gostring) :
  Forall (fun e => ~ In x e) l -> ~ In x sep -> ~ In x (strings.Join l sep).
Proof.
  intros Hl Hs. induction Hl as [|e l He Hl IH]; [cbn; tauto|].
  destruct l as [|e' l]; cbn [strings.Join]; [exact He|].
  rewrite !in_app_iff. tauto.
Qed.

(** X11.  [generateWorkspace] writes every "/" of the environment as
    "__", so two environments that differ only in a "/" against a "__"
    (say "eu/prod" and "eu__prod") get the same workspace name. *)
Theorem generateWorkspace_env_collision (m : terraform.Manager) (p p' : terraform.Paths)
  (product module_ x y inst action actionFlags ws : gostring) :
  terraform.generateWorkspace m
    (terraform.mkCommand product module_ (x ++ [47] ++ y) inst action actionFlags ws) p =
  terraform.generateWorkspace m
    (terraform.mkCommand product module_ (x ++ s2g "__" ++ y) inst action actionFlags ws) p'.
Proof.
  unfold terraform.generateWorkspace. cbn [terraform.Env].
  rewrite !ReplaceAll_app. reflexivity.
Qed.

(** X12.  When the product, repository, module and instance names hold
    no "/", the workspace name [generateWorkspace] builds holds none,
    whatever the environment path. *)
Theorem generateWorkspace_no_slash (m : terraform.Manager) (cmd : terraform.Command)
  (p : terraform.Paths) :
  ~ In 47 (terraform.Product cmd) -> ~ In 47 (config.RepoName (terraform.config m)) ->
  ~ In 47 (terraform.Module_ cmd) -> ~ In 47 (terraform.ModuleInstance cmd) ->
  ~ In 47 (terraform.generateWorkspace m cmd p).
Proof.
  intros H1 H2 H3 H4. unfold terraform.generateWorkspace.
  apply strings_Join_notin; [|cbn; intuition lia].
  repeat constructor; auto. apply ReplaceAll_slash.
Qed.

Lemma generateWorkspace_no_slash_witness :
  ~ In 47 (terraform.generateWorkspace (terraform.NewManager demo_config)
             (demo_command (s2g "plan")) (terraform.computePaths
                (terraform.NewManager demo_config) (demo_command (s2g "plan")))).
Proof.
  apply generateWorkspace_no_slash; vm_compute; intuition discriminate.
Defined.

Lemma bind_ret_l {A B} (t : list gostring) (ev : list event) (a : A) (k : A -> terraform.M B) :
  terraform.bind (t, ev, terraform.MRet a) k =
  let '(t', ev', r) := k a in (t ++ t', ev ++ ev', r).
Proof. reflexivity. Qed.

Lemma Contains_empty_already :
  strings.Contains [] (s2g "already exists") = false.
Proof. reflexivity. Qed.

Lemma selectWorkspace_shape h name :
  exists ev e, terraform.selectWorkspace h name =
    ([s2g "terraform workspace select " ++ name], ev, terraform.MRet e).
Proof.
  unfold terraform.selectWorkspace.
  destruct (runCmd_nonstrict h (s2g "terraform workspace select " ++ name)
              (s2g "Selecting workspace " ++ AddEmphasisBlue name) DefaultCmdFlags
              [s2g "Failed to select workspace " ++ name] eq_refl) as [ev E].
  rewrite E, bind_ret_l.
  destruct (Success _); cbn; do 2 eexists; rewrite app_nil_r; reflexivity.
Qed.

(** X13.  [ensureWorkspace] never decides anything from the listing of
    [terraform workspace list]: that command runs with [DefaultCmdFlags]'
    pass-through output, so its captured output is empty and no line of
    it matches a non-empty workspace name.  When the listing succeeds,
    [terraform workspace new] is always run next; [terraform workspace
    select] follows only when that command could not even be started.
    The function itself never exits the program. *)
Theorem ensureWorkspace_ignores_list h (name : gostring) t ev r :
  name <> [] -> terraform.ensureWorkspace h name = (t, ev, r) ->
  (exists e, r = terraform.MRet e) /\
  ((t = [s2g "terraform workspace list"] /\
    Success (snd (execSystemCommand h (s2g "terraform workspace list") terraform.quiet_flags))
      = false) \/
   (Success (snd (execSystemCommand h (s2g "terraform workspace list") terraform.quiet_flags))
      = true /\
    (t = [s2g "terraform workspace list"; s2g "terraform workspace new " ++ name] \/
     (t = [s2g "terraform workspace list"; s2g "terraform workspace new " ++ name;
           s2g "terraform workspace select " ++ name] /\
      launched (fst (execSystemCommand h (s2g "terraform workspace new " ++ name)
                       workspace_new_flags)) = false)))).
Proof.
  intros Hn He. unfold terraform.ensureWorkspace in He.
  destruct (runCmd_nonstrict h (s2g "terraform workspace list")
              (s2g "Checking available workspaces") terraform.quiet_flags [] eq_refl)
    as [ev1 E1].
  rewrite E1, bind_ret_l in He.
  rewrite (passthrough_output h _ terraform.quiet_flags eq_refl) in He.
  destruct (Success (snd (execSystemCommand h (s2g "terraform workspace list")
                            terraform.quiet_flags))) eqn:S1.
  2:{ cbn in He. injection He as <- <- <-. split; [eexists; reflexivity|].
      left. split; reflexivity. }
  replace (strings.Split [] 10) with [@nil Z] in He by reflexivity.
  rewrite (ws_scan_empty_line name Hn) in He. cbn [negb] in He.
  destruct (runCmd_nonstrict h (s2g "terraform workspace new " ++ name)
              (s2g "Creating workspace " ++ AddEmphasisBlue name) workspace_new_flags
              [s2g "Failed to create workspace " ++ name] eq_refl) as [ev2 E2].
  rewrite E2, bind_ret_l in He.
  destruct (launched (fst (execSystemCommand h (s2g "terraform workspace new " ++ name)
                             workspace_new_flags))) eqn:L2.
  - rewrite (passthrough_error h _ workspace_new_flags eq_refl L2), Contains_empty_already
      in He.
    rewrite andb_false_r in He.
    destruct (Success (snd (execSystemCommand h (s2g "terraform workspace new " ++ name)
                              workspace_new_flags))); cbn in He;
      injection He as <- <- <-; (split; [eexists; reflexivity|]); right; split; auto.
  - destruct (Success (snd (execSystemCommand h (s2g "terraform workspace new " ++ name)
                              workspace_new_flags))); cbn [negb andb] in He.
    + cbn in He. injection He as <- <- <-. split; [eexists; reflexivity|]. right. auto.
    + destruct (strings.Contains _ _).
      * destruct (selectWorkspace_shape h name) as (ev3 & e3 & E3). rewrite E3 in He.
        cbn in He. injection He as <- <- <-. split; [eexists; reflexivity|].
        right. split; [reflexivity|]. right. split; [reflexivity|reflexivity].
      * cbn in He. injection He as <- <- <-. split; [eexists; reflexivity|]. right. auto.
Qed.

Lemma ensureWorkspace_ignores_list_witness :
  let '(t, ev, r) := terraform.ensureWorkspace tf_host (s2g "app.infra.net.dev.main") in
  (exists e, r = terraform.MRet e) /\
  ((t = [s2g "terraform workspace list"] /\
    Success (snd (execSystemCommand tf_host (s2g "terraform workspace list")
                    terraform.quiet_flags)) = false) \/
   (Success (snd (execSystemCommand tf_host (s2g "terraform workspace list")
                    terraform.quiet_flags)) = true /\
    (t = [s2g "terraform workspace list";
          s2g "terraform workspace new " ++ s2g "app.infra.net.dev.main"] \/
     (t = [s2g "terraform workspace list";
           s2g "terraform workspace new " ++ s2g "app.infra.net.dev.main";
           s2g "terraform workspace select " ++ s2g "app.infra.net.dev.main"] /\
      launched (fst (execSystemCommand tf_host
                       (s2g "terraform workspace new " ++ s2g "app.infra.net.dev.main")
                       workspace_new_flags)) = false)))).
Proof.
  destruct (terraform.ensureWorkspace tf_host (s2g "app.infra.net.dev.main"))
    as [[t ev] r] eqn:E.
  apply (ensureWorkspace_ignores_list tf_host (s2g "app.infra.net.dev.main") t ev r).
  - discriminate.
  - exact E.
Defined.

(** X14.  When [terraform workspace list] succeeds and [terraform
    workspace new] starts and exits with 0 or 1 (1 being Terraform's
    status for a workspace that already exists), [ensureWorkspace] runs
    exactly those two commands and returns a nil error: an existing
    workspace is never selected, because exit code 1 is listed as valid
    and the "already exists" branch needs a failed result. *)
Theorem ensureWorkspace_existing_not_selected h (name : gostring) :
  name <> [] ->
  Success (snd (execSystemCommand h (s2g "terraform workspace list") terraform.quiet_flags))
    = true ->
  launched (fst (execSystemCommand h (s2g "terraform workspace new " ++ name)
                   workspace_new_flags)) = true ->
  In (ExitCode (snd (execSystemCommand h (s2g "terraform workspace new " ++ name)
                       workspace_new_flags))) [0; 1] ->
  fst (fst (terraform.ensureWorkspace h name)) =
    [s2g "terraform workspace list"; s2g "terraform workspace new " ++ name] /\
  snd (terraform.ensureWorkspace h name) = terraform.MRet None.
Proof.
  intros Hn S1 L2 Hc. unfold terraform.ensureWorkspace.
  destruct (runCmd_nonstrict h (s2g "terraform workspace list")
              (s2g "Checking available workspaces") terraform.quiet_flags [] eq_refl)
    as [ev1 E1].
  rewrite E1, bind_ret_l, S1.
  rewrite (passthrough_output h _ terraform.quiet_flags eq_refl).
  replace (strings.Split [] 10) with [@nil Z] by reflexivity.
  rewrite (ws_scan_empty_line name Hn). cbn [negb].
  destruct (runCmd_nonstrict h (s2g "terraform workspace new " ++ name)
              (s2g "Creating workspace " ++ AddEmphasisBlue name) workspace_new_flags
              [s2g "Failed to create workspace " ++ name] eq_refl) as [ev2 E2].
  rewrite E2, bind_ret_l.
  rewrite (launched_success h _ workspace_new_flags L2).
  replace (validCode_loop _ (ValidExitCodes workspace_new_flags)) with true.
  - cbn. split; reflexivity.
  - cbn [In] in Hc. destruct Hc as [Hc|[Hc|[]]]; rewrite <- Hc; reflexivity.
Qed.

Lemma ensureWorkspace_existing_not_selected_witness :
  fst (fst (terraform.ensureWorkspace tf_host (s2g "app.infra.net.dev.main"))) =
    [s2g "terraform workspace list"; s2g "terraform workspace new " ++ s2g "app.infra.net.dev.main"] /\
  snd (terraform.ensureWorkspace tf_host (s2g "app.infra.net.dev.main")) = terraform.MRet None.
Proof.
  apply ensureWorkspace_existing_not_selected.
  - discriminate.
  - vm_compute. reflexivity.
  - vm_compute. reflexivity.
  - vm_compute. auto.
Defined.

Lemma runTerraform_shape h c message failMessage errMessage :
  exists ev, terraform.runTerraform h c message failMessage errMessage =
    ([c], ev, terraform.MRet (if Success (snd (execSystemCommand h c DefaultCmdFlags))
                              then None else Some errMessage)).
Proof.
  unfold terraform.runTerraform.
  destruct (runCmd_nonstrict h c message DefaultCmdFlags [failMessage] eq_refl) as [ev E].
  rewrite E, bind_ret_l.
  destruct (Success _); cbn; eexists; rewrite app_nil_r; reflexivity.
Qed.

Ltac action_case Hin :=
  match goal with
  | |- context [gs_eqb ?a ?x] =>
      let E := fresh "E" in destruct (gs_eqb a x) eqn:E
  end.

(** X15.  An action outside the ones [executeTerraformAction] dispatches
    runs no command, prints nothing and returns the error
    "unsupported terraform action: <action>". *)
Theorem executeTerraformAction_unsupported w h (cmd : terraform.Command) paths ws :
  ~ In (terraform.Action cmd) terraform_actions ->
  terraform.executeTerraformAction w h cmd paths ws =
    ([], [], terraform.MRet (Some (s2g "unsupported terraform action: " ++ terraform.Action cmd))).
Proof.
  intros Hn. unfold terraform.executeTerraformAction.
  repeat (rewrite (gs_eqb_neq (terraform.Action cmd));
          [|intros Ea; apply Hn; rewrite Ea; cbn [terraform_actions In];
            repeat (first [left; reflexivity | right])]).
  reflexivity.
Qed.

Lemma executeTerraformAction_unsupported_witness :
  terraform.executeTerraformAction demo_world tf_host (demo_command (s2g "nope"))
    (terraform.computePaths (terraform.NewManager demo_config) (demo_command (s2g "nope")))
    (s2g "app.infra.net.dev.main") =
  ([], [], terraform.MRet (Some (s2g "unsupported terraform action: "
                                 ++ terraform.Action (demo_command (s2g "nope"))))).
Proof.
  apply executeTerraformAction_unsupported. vm_compute. intuition discriminate.
Defined.

(** X16.  A supported action runs exactly one command, with
    [DefaultCmdFlags()], and never exits the program: the result is a
    nil error when that command succeeded and an error otherwise. *)
Theorem executeTerraformAction_one_command w h (cmd : terraform.Command) paths ws :
  In (terraform.Action cmd) terraform_actions ->
  exists c ev err,
    terraform.executeTerraformAction w h cmd paths ws =
      ([c], ev, terraform.MRet (if Success (snd (execSystemCommand h c DefaultCmdFlags))
                                then None else Some err)).
Proof.
  intros Hin. unfold terraform.executeTerraformAction,
    terraform.terraformInit, terraform.terraformPlan, terraform.terraformApply,
    terraform.terraformDestroy, terraform.terraformOutput, terraform.terraformImport,
    terraform.terraformTaint, terraform.terraformUntaint, terraform.terraformState,
    terraform.terraformRefresh, terraform.terraformValidate, terraform.terraformFormat,
    terraform.terraformShow.
  repeat action_case Hin; cbn [orb];
    try (match goal with
         | |- exists c ev err, terraform.runTerraform h ?c' ?m ?f ?e = _ =>
             destruct (runTerraform_shape h c' m f e) as [ev' ->];
             exists c', ev', e; reflexivity
         end).
  exfalso. unfold terraform_actions in Hin. cbn [In] in Hin.
  repeat (destruct Hin as [Ea|Hin];
          [match goal with
           | Ex : gs_eqb _ ?x = false |- _ =>
               rewrite <- Ea, gs_eqb_refl in Ex; discriminate Ex
           end|]).
  exact Hin.
Qed.

Lemma executeTerraformAction_one_command_witness :
  exists c ev err,
    terraform.executeTerraformAction demo_world tf_host (demo_command (s2g "plan"))
      (terraform.computePaths (terraform.NewManager demo_config) (demo_command (s2g "plan")))
      (s2g "app.infra.net.dev.main") =
      ([c], ev, terraform.MRet (if Success (snd (execSystemCommand tf_host c DefaultCmdFlags))
                                then None else Some err)).
Proof.
  apply executeTerraformAction_one_command. vm_compute. auto 20.
Defined.

Lemma TrimSpace_quoted_end (s : gostring) (c : Z) (rest pre : gostring) :
  s = c :: rest -> s = pre ++ [34] -> IsSpace c = false -> TrimSpace s = s.
Proof.
  intros H1 H2 Hc. apply TrimSpace_id.
  - rewrite H1. exact Hc.
  - rewrite H2, rev_app_distr. reflexivity.
Qed.

(** X17.  Without action flags, the command [terraformPlan] runs is read
    back by [parseCommand] as the program "terraform" with the arguments
    "plan", "-var-file=<var file>" and "-out=<plan file>", whatever
    spaces or single quotes the two paths hold, provided they hold no
    double quote.  It is the one command the method runs, and the method
    never exits. *)
Theorem terraformPlan_argv h (cmd : terraform.Command) (paths : terraform.Paths) :
  terraform.ActionFlags cmd = [] ->
  existsb (Z.eqb 34) (terraform.VarFile paths) = false ->
  existsb (Z.eqb 34) (terraform.PlanFile paths) = false ->
  exists c ev,
    terraform.terraformPlan h cmd paths =
      ([c], ev, terraform.MRet (if Success (snd (execSystemCommand h c DefaultCmdFlags))
                                then None else Some (s2g "terraform plan failed"))) /\
    parseCommand c = (s2g "terraform", [s2g "plan"; s2g "-var-file=" ++ terraform.VarFile paths;
                                        s2g "-out=" ++ terraform.PlanFile paths]).
Proof.
  intros Ha Hv Hp. unfold terraform.terraformPlan. rewrite Ha.
  set (c := terraform.with_action_flags _ []).
  destruct (runTerraform_shape h c (s2g "Planning terraform changes")
              (s2g "Terraform plan failed") (s2g "terraform plan failed")) as [ev E].
  exists c, ev. split; [exact E|].
  set (V := terraform.VarFile paths) in *. set (P := terraform.PlanFile paths) in *.
  assert (Ec : c = s2g "terraform plan -var-file=" ++ ([34] ++ V ++ [34])
                   ++ [32] ++ s2g "-out=" ++ ([34] ++ P ++ [34])) by reflexivity.
  unfold parseCommand.
  rewrite (TrimSpace_quoted_end c 116 (skipn 1 c)
             (s2g "terraform plan -var-file=" ++ ([34] ++ V ++ [34]) ++ [32] ++ s2g "-out="
              ++ [34] ++ P)).
  2:{ rewrite Ec. reflexivity. }
  2:{ rewrite Ec, <- !app_assoc. reflexivity. }
  2:{ reflexivity. }
  replace (is_empty c) with false by (rewrite Ec; reflexivity). cbv zeta iota.
  rewrite Ec.
  rewrite (fold_left_app pc_step (s2g "terraform plan -var-file=")).
  change (fold_left pc_step (s2g "terraform plan -var-file=") pinit)
    with (mkPstate [s2g "terraform"; s2g "plan"] (s2g "-var-file=") false 0).
  rewrite (fold_left_app pc_step ([34] ++ V ++ [34])), (fold_dq _ _ _ Hv).
  rewrite (fold_left_app pc_step [32]), fold_space by (cbn; discriminate).
  rewrite (fold_left_app pc_step (s2g "-out=")), fold_plain by reflexivity.
  rewrite (fold_dq _ _ _ Hp). reflexivity.
Qed.

Lemma terraformPlan_argv_witness :
  exists c ev,
    terraform.terraformPlan tf_host (demo_command (s2g "plan"))
      (terraform.computePaths (terraform.NewManager demo_config) (demo_command (s2g "plan"))) =
      ([c], ev, terraform.MRet (if Success (snd (execSystemCommand tf_host c DefaultCmdFlags))
                                then None else Some (s2g "terraform plan failed"))) /\
    parseCommand c =
      (s2g "terraform",
       [s2g "plan";
        s2g "-var-file=" ++ terraform.VarFile (terraform.computePaths
          (terraform.NewManager demo_config) (demo_command (s2g "plan")));
        s2g "-out=" ++ terraform.PlanFile (terraform.computePaths
          (terraform.NewManager demo_config) (demo_command (s2g "plan")))]).
Proof.
  apply terraformPlan_argv; vm_compute; reflexivity.
Defined.

(** X18.  When the plan file exists (as a file or a directory),
    [terraformApply] runs "terraform apply" on it alone: the action flags
    are not passed.  A plan file path that is non-empty and holds no
    double quote is read back by [parseCommand] as the single argument
    after "apply". *)
Theorem terraformApply_saved_plan w h (cmd : terraform.Command) (paths : terraform.Paths)
  (isDir : bool) :
  terraform.stat w (terraform.PlanFile paths) = Some isDir ->
  exists ev,
    terraform.terraformApply w h cmd paths =
      ([s2g "terraform apply " ++ terraform.dq (terraform.PlanFile paths)], ev,
       terraform.MRet
         (if Success (snd (execSystemCommand h
                             (s2g "terraform apply " ++ terraform.dq (terraform.PlanFile paths))
                             DefaultCmdFlags))
          then None else Some (s2g "terraform apply failed"))) /\
    (terraform.PlanFile paths <> [] -> existsb (Z.eqb 34) (terraform.PlanFile paths) = false ->
     parseCommand (s2g "terraform apply " ++ terraform.dq (terraform.PlanFile paths)) =
       (s2g "terraform", [s2g "apply"; terraform.PlanFile paths])).
Proof.
  intros Hs. unfold terraform.terraformApply. rewrite Hs.
  destruct (runTerraform_shape h (s2g "terraform apply " ++ terraform.dq (terraform.PlanFile paths))
              (s2g "Applying terraform changes") (s2g "Terraform apply failed")
              (s2g "terraform apply failed")) as [ev E].
  exists ev. split; [exact E|].
  set (P := terraform.PlanFile paths). intros Hne Hp.
  set (c := s2g "terraform apply " ++ terraform.dq P).
  assert (Ec : c = s2g "terraform apply" ++ [32] ++ ([34] ++ P ++ [34])) by reflexivity.
  unfold parseCommand.
  rewrite (TrimSpace_quoted_end c 116 (skipn 1 c) (s2g "terraform apply" ++ [32] ++ [34] ++ P)).
  2:{ rewrite Ec. reflexivity. }
  2:{ rewrite Ec, <- !app_assoc. reflexivity. }
  2:{ reflexivity. }
  replace (is_empty c) with false by (rewrite Ec; reflexivity). cbv zeta iota.
  rewrite Ec.
  rewrite (fold_left_app pc_step (s2g "terraform apply")).
  change (fold_left pc_step (s2g "terraform apply") pinit)
    with (mkPstate [s2g "terraform"] (s2g "apply") false 0).
  rewrite (fold_left_app pc_step [32]), fold_space by discriminate.
  rewrite (fold_dq _ _ _ Hp).
  destruct P as [|x P']; [congruence|]. reflexivity.
Qed.

Lemma terraformApply_saved_plan_witness :
  exists ev,
    terraform.terraformApply demo_world_planned tf_host
      (terraform.mkCommand (s2g "app") (s2g "net") (s2g "dev") (s2g "main") (s2g "apply")
         (s2g "-auto-approve") [])
      (terraform.computePaths (terraform.NewManager demo_config) (demo_command (s2g "apply"))) =
      ([s2g "terraform apply " ++ terraform.dq (terraform.PlanFile (terraform.computePaths
          (terraform.NewManager demo_config) (demo_command (s2g "apply"))))], ev,
       terraform.MRet
         (if Success (snd (execSystemCommand tf_host
                             (s2g "terraform apply " ++ terraform.dq (terraform.PlanFile
                                (terraform.computePaths (terraform.NewManager demo_config)
                                   (demo_command (s2g "apply")))))
                             DefaultCmdFlags))
          then None else Some (s2g "terraform apply failed"))) /\
    (terraform.PlanFile (terraform.computePaths (terraform.NewManager demo_config)
                           (demo_command (s2g "apply"))) <> [] ->
     existsb (Z.eqb 34) (terraform.PlanFile (terraform.computePaths
                           (terraform.NewManager demo_config) (demo_command (s2g "apply"))))
       = false ->
     parseCommand (s2g "terraform apply " ++ terraform.dq (terraform.PlanFile
       (terraform.computePaths (terraform.NewManager demo_config) (demo_command (s2g "apply"))))) =
       (s2g "terraform", [s2g "apply"; terraform.PlanFile (terraform.computePaths
          (terraform.NewManager demo_config) (demo_command (s2g "apply")))])).
Proof.
  apply (terraformApply_saved_plan _ _ _ _ false). vm_compute. reflexivity.
Defined.

Ltac native_step :=
  match goal with
  | |- context [terraform.runNative ?h ?f ?msg ?fl ?fm] =>
      let ev := fresh "ev" in let E := fresh "E" in
      destruct (runNative_nonstrict h f msg fl fm eq_refl) as [ev E];
      rewrite E, bind_ret_l
  end.

(** The checks of [validateCommand], in order. *)
Lemma validateCommand_shape w h (m : terraform.Manager) (cmd : terraform.Command) :
  exists ev e,
    terraform.validateCommand w h m cmd = ([], ev, terraform.MRet e) /\
    (e = None <->
     terraform.stat w (filepath.Join [config.GetEnvPath (terraform.config m);
                                      terraform.Product cmd]) = Some true /\
     config.RepoName (terraform.config m) <> [] /\
     terraform.stat w (filepath.Join [config.GetModulePath (terraform.config m);
                                      terraform.Module_ cmd]) = Some true /\
     terraform.stat w (filepath.Join [config.GetEnvPath (terraform.config m);
                                      terraform.Product cmd; terraform.Env cmd]) = Some true /\
     terraform.stat w (filepath.Join
       [filepath.Join [config.GetEnvPath (terraform.config m); terraform.Product cmd;
                       terraform.Env cmd];
        terraform.Module_ cmd; terraform.ModuleInstance cmd ++ s2g ".tfvars"]) = Some false).
Proof.
  unfold terraform.validateCommand. cbv zeta.
  native_step. unfold NativeTestDir, TestDir at 1.
  destruct (terraform.stat w (filepath.Join [config.GetEnvPath (terraform.config m);
                                             terraform.Product cmd])) as [[|]|] eqn:S1;
    cbn [Success negb];
    try (do 2 eexists; split; [reflexivity|]; split; [discriminate|intros (H & _); discriminate H]).
  destruct (config.RepoName (terraform.config m)) as [|r0 rn] eqn:Hr; cbn [is_empty].
  { do 2 eexists; split; [reflexivity|]. split; [discriminate|intros (_ & H & _); congruence]. }
  native_step. cbn [NativeTestNotEmpty TestNotEmpty is_empty negb Success].
  native_step. unfold TestDir at 1.
  destruct (terraform.stat w (filepath.Join [config.GetModulePath (terraform.config m);
                                             terraform.Module_ cmd])) as [[|]|] eqn:S2;
    cbn [Success negb];
    try (do 2 eexists; split; [reflexivity|];
         split; [discriminate|intros (_ & _ & H & _); discriminate H]).
  native_step. unfold TestDir at 1.
  destruct (terraform.stat w (filepath.Join [config.GetEnvPath (terraform.config m);
                                             terraform.Product cmd; terraform.Env cmd]))
    as [[|]|] eqn:S3;
    cbn [Success negb];
    try (do 2 eexists; split; [reflexivity|];
         split; [discriminate|intros (_ & _ & _ & H & _); discriminate H]).
  native_step. unfold NativeTestFile, TestFile at 1.
  destruct (terraform.stat w (filepath.Join
       [filepath.Join [config.GetEnvPath (terraform.config m); terraform.Product cmd;
                       terraform.Env cmd];
        terraform.Module_ cmd; terraform.ModuleInstance cmd ++ s2g ".tfvars"]))
    as [[|]|] eqn:S4;
    cbn [Success negb];
    try (do 2 eexists; split; [reflexivity|];
         split; [discriminate|intros (_ & _ & _ & _ & H); discriminate H]).
  do 2 eexists; split; [reflexivity|]. split; [intros _; repeat split; congruence|reflexivity].
Qed.

Lemma ensureWorkspace_noexit h name :
  exists t ev e, terraform.ensureWorkspace h name = (t, ev, terraform.MRet e).
Proof.
  unfold terraform.ensureWorkspace.
  destruct (runCmd_nonstrict h (s2g "terraform workspace list")
              (s2g "Checking available workspaces") terraform.quiet_flags [] eq_refl)
    as [ev1 E1].
  rewrite E1, bind_ret_l.
  destruct (negb _); [cbn; eauto|].
  destruct (terraform.ws_scan _ _) as [[|]|].
  - destruct (selectWorkspace_shape h name) as (ev3 & e3 & ->). cbn. eauto.
  - cbn. eauto.
  - destruct (runCmd_nonstrict h (s2g "terraform workspace new " ++ name)
                (s2g "Creating workspace " ++ AddEmphasisBlue name) workspace_new_flags
                [s2g "Failed to create workspace " ++ name] eq_refl) as [ev2 E2].
    rewrite E2, bind_ret_l.
    destruct (negb _ && _).
    + destruct (selectWorkspace_shape h name) as (ev3 & e3 & ->). cbn. eauto.
    + destruct (negb _); cbn; eauto.
Qed.

Lemma executeTerraformAction_noexit w h cmd paths ws :
  exists t ev e, terraform.executeTerraformAction w h cmd paths ws = (t, ev, terraform.MRet e).
Proof.
  unfold terraform.executeTerraformAction,
    terraform.terraformInit, terraform.terraformPlan, terraform.terraformApply,
    terraform.terraformDestroy, terraform.terraformOutput, terraform.terraformImport,
    terraform.terraformTaint, terraform.terraformUntaint, terraform.terraformState,
    terraform.terraformRefresh, terraform.terraformValidate, terraform.terraformFormat,
    terraform.terraformShow.
  repeat (destruct (gs_eqb _ _)); cbn [orb];
    first [ match goal with
            | |- exists t ev e, terraform.runTerraform ?h' ?c' ?m ?f ?e' = _ =>
                destruct (runTerraform_shape h' c' m f e') as [ev' ->]; eauto
            end
          | do 3 eexists; reflexivity ].
Qed.

Lemma trace_bind_ret {A B} (t : list gostring) (ev : list event) (a : A)
  (k : A -> terraform.M B) :
  fst (fst (terraform.bind (t, ev, terraform.MRet a) k)) = t ++ fst (fst (k a)).
Proof. unfold terraform.bind. destruct (k a) as [[t' ev'] r]. reflexivity. Qed.

Lemma result_bind_ret {A B} (t : list gostring) (ev : list event) (a : A)
  (k : A -> terraform.M B) :
  snd (terraform.bind (t, ev, terraform.MRet a) k) = snd (k a).
Proof. unfold terraform.bind. destruct (k a) as [[t' ev'] r]. reflexivity. Qed.

Lemma ensureWorkspace_first h name :
  exists rest, fst (fst (terraform.ensureWorkspace h name)) =
               s2g "terraform workspace list" :: rest.
Proof.
  unfold terraform.ensureWorkspace.
  destruct (runCmd_nonstrict h (s2g "terraform workspace list")
              (s2g "Checking available workspaces") terraform.quiet_flags [] eq_refl)
    as [ev1 E1].
  rewrite E1, trace_bind_ret. eexists. reflexivity.
Qed.

(** X19.  [Execute] runs no command at all unless every check of
    [validateCommand] passed (the product and environment directories
    and the module directory exist as directories, the repository name is
    not empty, the instance's ".tfvars" file exists and is not a
    directory) and the change to the module directory succeeded. *)
Theorem Execute_checks_before_running w h (m : terraform.Manager) (cmd : terraform.Command) :
  fst (fst (terraform.Execute w h m cmd)) <> [] ->
  terraform.stat w (filepath.Join [config.GetEnvPath (terraform.config m);
                                   terraform.Product cmd]) = Some true /\
  config.RepoName (terraform.config m) <> [] /\
  terraform.stat w (filepath.Join [config.GetModulePath (terraform.config m);
                                   terraform.Module_ cmd]) = Some true /\
  terraform.stat w (filepath.Join [config.GetEnvPath (terraform.config m);
                                   terraform.Product cmd; terraform.Env cmd]) = Some true /\
  terraform.stat w (filepath.Join
    [filepath.Join [config.GetEnvPath (terraform.config m); terraform.Product cmd;
                    terraform.Env cmd];
     terraform.Module_ cmd; terraform.ModuleInstance cmd ++ s2g ".tfvars"]) = Some false /\
  terraform.chdir w (terraform.ModulePath (terraform.computePaths m cmd)) = None.
Proof.
  intros Hne. destruct (validateCommand_shape w h m cmd) as (ev0 & e & Ev & Hiff).
  unfold terraform.Execute, terraform.say in Hne.
  rewrite trace_bind_ret, app_nil_l in Hne. cbv beta in Hne.
  rewrite Ev, trace_bind_ret, app_nil_l in Hne. cbv beta zeta in Hne.
  destruct e as [e|]; [exfalso; apply Hne; reflexivity|].
  destruct (proj1 Hiff eq_refl) as (H1 & H2 & H3 & H4 & H5).
  repeat split; auto.
  destruct (terraform.chdir w (terraform.ModulePath (terraform.computePaths m cmd))) eqn:Hc;
    [|reflexivity].
  exfalso. apply Hne. reflexivity.
Qed.

Lemma Execute_checks_before_running_witness :
  terraform.stat demo_world
    (filepath.Join [config.GetEnvPath demo_config; s2g "app"]) = Some true /\
  config.RepoName demo_config <> [] /\
  terraform.stat demo_world
    (filepath.Join [config.GetModulePath demo_config; s2g "net"]) = Some true /\
  terraform.stat demo_world
    (filepath.Join [config.GetEnvPath demo_config; s2g "app"; s2g "dev"]) = Some true /\
  terraform.stat demo_world (filepath.Join
    [filepath.Join [config.GetEnvPath demo_config; s2g "app"; s2g "dev"];
     s2g "net"; s2g "main" ++ s2g ".tfvars"]) = Some false /\
  terraform.chdir demo_world (terraform.ModulePath
    (terraform.computePaths (terraform.NewManager demo_config) (demo_command (s2g "plan"))))
    = None.
Proof.
  apply (Execute_checks_before_running demo_world tf_host (terraform.NewManager demo_config)
           (demo_command (s2g "plan"))).
  vm_compute. discriminate.
Defined.

(** X20.  Once the checks pass and the change of directory succeeds, the
    first command [Execute] runs is "terraform init" (with the action
    flags) for the init action, and "terraform workspace list" for any
    other action, supported or not: the workspace is handled before the
    action is looked at. *)
Theorem Execute_first_command w h (m : terraform.Manager) (cmd : terraform.Command) :
  terraform.stat w (filepath.Join [config.GetEnvPath (terraform.config m);
                                   terraform.Product cmd]) = Some true ->
  config.RepoName (terraform.config m) <> [] ->
  terraform.stat w (filepath.Join [config.GetModulePath (terraform.config m);
                                   terraform.Module_ cmd]) = Some true ->
  terraform.stat w (filepath.Join [config.GetEnvPath (terraform.config m);
                                   terraform.Product cmd; terraform.Env cmd]) = Some true ->
  terraform.stat w (filepath.Join
    [filepath.Join [config.GetEnvPath (terraform.config m); terraform.Product cmd;
                    terraform.Env cmd];
     terraform.Module_ cmd; terraform.ModuleInstance cmd ++ s2g ".tfvars"]) = Some false ->
  terraform.chdir w (terraform.ModulePath (terraform.computePaths m cmd)) = None ->
  exists rest, fst (fst (terraform.Execute w h m cmd)) =
    (if gs_eqb (terraform.Action cmd) (s2g "init")
     then terraform.with_action_flags (s2g "terraform init") (terraform.ActionFlags cmd)
     else s2g "terraform workspace list") :: rest.
Proof.
  intros H1 H2 H3 H4 H5 Hc. destruct (validateCommand_shape w h m cmd) as (ev0 & e & Ev & Hiff).
  assert (He : e = None) by (apply Hiff; auto). subst e.
  unfold terraform.Execute, terraform.say.
  rewrite trace_bind_ret, app_nil_l. cbv beta.
  rewrite Ev, trace_bind_ret, app_nil_l. cbv beta zeta.
  rewrite trace_bind_ret, app_nil_l. cbv beta.
  rewrite trace_bind_ret, app_nil_l. cbv beta.
  rewrite Hc, trace_bind_ret, app_nil_l. cbv beta.
  destruct (gs_eqb (terraform.Action cmd) (s2g "init")).
  - unfold terraform.terraformInit.
    match goal with
    | |- context [terraform.runTerraform ?a ?b ?c ?d ?e] =>
        destruct (runTerraform_shape a b c d e) as [ev1 ->]
    end.
    rewrite trace_bind_ret. eexists. reflexivity.
  - match goal with
    | |- context [terraform.ensureWorkspace ?a ?b] =>
        destruct (ensureWorkspace_noexit a b) as (t & ev1 & e1 & E1);
        destruct (ensureWorkspace_first a b) as [rest Hr]; rewrite E1 in Hr |- *
    end.
    cbn [fst] in Hr. subst t. rewrite trace_bind_ret. eexists. reflexivity.
Qed.

Lemma Execute_first_command_witness :
  exists rest, fst (fst (terraform.Execute demo_world tf_host
                           (terraform.NewManager demo_config) (demo_command (s2g "plan")))) =
    (if gs_eqb (terraform.Action (demo_command (s2g "plan"))) (s2g "init")
     then terraform.with_action_flags (s2g "terraform init")
            (terraform.ActionFlags (demo_command (s2g "plan")))
     else s2g "terraform workspace list") :: rest.
Proof.
  apply Execute_first_command; vm_compute; first [reflexivity | discriminate].
Defined.

(** X21.  [Execute] never exits the program itself: every command it
    runs uses non-strict flags, so whatever the checks, the file system
    and the commands do, it returns (a nil error or an error). *)
Theorem Execute_returns w h (m : terraform.Manager) (cmd : terraform.Command) :
  exists e, snd (terraform.Execute w h m cmd) = terraform.MRet e.
Proof.
  destruct (validateCommand_shape w h m cmd) as (ev0 & e & Ev & _).
  unfold terraform.Execute, terraform.say.
  rewrite result_bind_ret. cbv beta.
  rewrite Ev, result_bind_ret. cbv beta zeta.
  destruct e as [e|]; [eexists; reflexivity|].
  rewrite result_bind_ret. cbv beta. rewrite result_bind_ret. cbv beta.
  destruct (terraform.chdir _ _); [eexists; reflexivity|].
  rewrite result_bind_ret. cbv beta.
  destruct (gs_eqb (terraform.Action cmd) (s2g "init")).
  - unfold terraform.terraformInit.
    match goal with
    | |- context [terraform.runTerraform ?a ?b ?c ?d ?e] =>
        destruct (runTerraform_shape a b c d e) as [ev1 ->]
    end.
    rewrite result_bind_ret. cbv beta.
    destruct (Success _); [|eexists; reflexivity].
    match goal with
    | |- context [terraform.ensureWorkspace ?a ?b] =>
        destruct (ensureWorkspace_noexit a b) as (t & ev2 & e2 & ->)
    end.
    rewrite result_bind_ret. destruct e2; eexists; reflexivity.
  - match goal with
    | |- context [terraform.ensureWorkspace ?a ?b] =>
        destruct (ensureWorkspace_noexit a b) as (t & ev2 & e2 & ->)
    end.
    rewrite result_bind_ret. destruct e2 as [e2|]; [eexists; reflexivity|].
    match goal with
    | |- context [terraform.executeTerraformAction ?a ?b ?c ?d ?e] =>
        destruct (executeTerraformAction_noexit a b c d e) as (t' & ev3 & e3 & ->)
    end.
    eexists. reflexivity.
Qed.

(** X22.  [Execute] never reads the [Workspace] field of the command
    (which the CLI fills from a "workspace=" argument): two commands that
    differ only there run the same commands with the same output and
    result; the workspace is always the one [generateWorkspace] builds. *)
Theorem Execute_ignores_Workspace w h (m : terraform.Manager)
  (product module_ env inst action actionFlags ws1 ws2 : gostring) :
  terraform.Execute w h m (terraform.mkCommand product module_ env inst action actionFlags ws1) =
  terraform.Execute w h m (terraform.mkCommand product module_ env inst action actionFlags ws2).
Proof. reflexivity. Qed.

(** *** filepath.Join regrouped *)

Lemma split_from_app (sep : Z) (cur u v : gostring) :
  strings.split_from sep cur (u ++ sep :: v) =
  strings.split_from sep cur u ++ strings.split_from sep [] v.
Proof.
  revert cur. induction u as [|c u IH]; intros cur; cbn.
  - rewrite Z.eqb_refl. reflexivity.
  - destruct (c =? sep); [rewrite IH; reflexivity | apply IH].
Qed.

Lemma split_from_no_sep (sep : Z) (cur s : gostring) :
  ~ In sep cur -> Forall (fun e => ~ In sep e) (strings.split_from sep cur s).
Proof.
  revert cur. induction s as [|c s IH]; intros cur Hc; cbn.
  - constructor; [exact Hc | constructor].
  - destruct (Z.eqb_spec c sep).
    + constructor; [exact Hc|]. apply IH. cbn. tauto.
    + apply IH. rewrite in_app_iff. cbn. intuition.
Qed.

Lemma split_from_plain (sep : Z) (cur s : gostring) :
  ~ In sep s -> strings.split_from sep cur s = [cur ++ s].
Proof.
  revert cur. induction s as [|c s IH]; intros cur Hs; cbn.
  - rewrite app_nil_r. reflexivity.
  - destruct (Z.eqb_spec c sep); [subst; cbn in Hs; tauto|].
    rewrite IH by (cbn in Hs; tauto). rewrite <- app_assoc. reflexivity.
Qed.

Lemma split_join (sep : Z) (l : list gostring) :
  l <> [] -> Forall (fun e => ~ In sep e) l ->
  strings.split_from sep [] (strings.Join l [sep]) = l.
Proof.
  induction l as [|e l IH]; intros Hne Hl; [congruence|].
  inversion Hl as [|? ? He Hl']; subst.
  destruct l as [|e' l].
  - cbn [strings.Join]. rewrite split_from_plain by exact He. reflexivity.
  - change (strings.Join (e :: e' :: l) [sep]) with (e ++ [sep] ++ strings.Join (e' :: l) [sep]).
    cbn [app]. rewrite split_from_app, IH by (congruence || exact Hl').
    rewrite split_from_plain by exact He. reflexivity.
Qed.

Lemma good_stack_nil r : good_stack r [].
Proof.
  split; [constructor|]. exists [], []. repeat split; constructor.
Qed.

Lemma good_stack_clean_elem r st e :
  good_stack r st -> ~ In filepath.Separator e -> good_stack r (filepath.clean_elem r st e).
Proof.
  intros [Hall (N & D & -> & HN & HD & Hr)] He. unfold filepath.clean_elem.
  destruct (is_empty e || gs_eqb e (s2g ".")) eqn:H1.
  { split; [exact Hall|]. exists N, D. auto. }
  apply orb_false_iff in H1 as [H1 H1'].
  assert (Hne : e <> []) by (destruct e; cbn in H1; congruence).
  assert (Hnd : e <> s2g ".") by (intro E; subst; discriminate H1').
  destruct (gs_eqb e (s2g "..")) eqn:H2.
  - apply gs_eqb_spec in H2. subst e.
    destruct (N ++ D) as [|top st'] eqn:Hst.
    + destruct r.
      * apply good_stack_nil.
      * split.
        { constructor; [|constructor]. unfold filepath.Separator. cbn.
          repeat split; [discriminate | intuition lia | discriminate]. }
        exists [], [s2g ".."]. split; [reflexivity|].
        split; [constructor|]. split; [repeat constructor | discriminate].
    + destruct (gs_eqb top (s2g "..")) eqn:H3.
      * apply gs_eqb_spec in H3. subst top.
        destruct N as [|n N'].
        2:{ inversion Hst; subst. inversion HN; congruence. }
        cbn in Hst. subst D.
        destruct r.
        { exfalso. specialize (Hr eq_refl). discriminate. }
        split.
        { constructor; [unfold filepath.Separator; cbn;
                        repeat split; [discriminate | intuition lia | discriminate]|].
          exact Hall. }
        exists [], (s2g ".." :: s2g ".." :: st'). split; [reflexivity|].
        split; [constructor|]. split; [constructor; [reflexivity | exact HD] | discriminate].
      * apply gs_eqb_neq in H3 ||
          (assert (H3' : top <> s2g "..") by (intro E; subst; rewrite gs_eqb_refl in H3;
                                              discriminate)).
        destruct N as [|n N'].
        { cbn in Hst. subst D. inversion HD. subst. rewrite gs_eqb_refl in H3. discriminate. }
        inversion Hst. subst n st'. inversion HN as [|? ? _ HN']. subst.
        split; [rewrite <- Hst in Hall; inversion Hall; assumption|].
        exists N', D. auto.
  - assert (Hdd : e <> s2g "..") by (intro E; subst; rewrite gs_eqb_refl in H2; discriminate).
    split; [constructor; auto|]. exists (e :: N), D. repeat split; auto.
Qed.

Lemma good_stack_fold r l st :
  Forall (fun e => ~ In filepath.Separator e) l -> good_stack r st ->
  good_stack r (fold_left (filepath.clean_elem r) l st).
Proof.
  intros Hl. revert st. induction Hl as [|e l He Hl IH]; intros st Hst; [exact Hst|].
  cbn. apply IH, good_stack_clean_elem; assumption.
Qed.

Lemma fold_rev_dots r D :
  Forall (fun e => e = s2g "..") D -> (r = true -> D = []) ->
  fold_left (filepath.clean_elem r) (rev D) [] = D.
Proof.
  intros HD. induction HD as [|d D Hd HD IH]; intros Hr; [reflexivity|].
  destruct r; [specialize (Hr eq_refl); discriminate|].
  cbn [rev]. rewrite fold_left_app, IH by discriminate. cbn [fold_left]. subst d.
  destruct D as [|d' D]; [reflexivity|]. inversion HD; subst. reflexivity.
Qed.

Lemma fold_rev_names r N D :
  Forall (fun e => e <> [] /\ ~ In filepath.Separator e /\ e <> s2g ".") N ->
  Forall (fun e => e <> s2g "..") N ->
  fold_left (filepath.clean_elem r) (rev N) D = N ++ D.
Proof.
  intros Hall HN. revert Hall. induction HN as [|n N Hn HN IH]; intros Hall; [reflexivity|].
  apply Forall_cons_iff in Hall as [(Hne & _ & Hnd) Hall'].
  cbn [rev]. unfold gostring in *. rewrite fold_left_app, (IH Hall'). cbn [fold_left].
  unfold filepath.clean_elem.
  rewrite (gs_eqb_neq n (s2g ".")), (gs_eqb_neq n (s2g "..")) by assumption.
  destruct n; [congruence|]. reflexivity.
Qed.

Lemma fold_rev_good r st :
  good_stack r st -> fold_left (filepath.clean_elem r) (rev st) [] = st.
Proof.
  intros [Hall (N & D & -> & HN & HD & Hr)].
  rewrite rev_app_distr, fold_left_app, fold_rev_dots by assumption.
  apply fold_rev_names; [|exact HN].
  apply Forall_app in Hall. tauto.
Qed.

Lemma Join_nonempty_head (l : list gostring) (sep : gostring) :
  Forall (fun e => e <> [] /\ ~ In filepath.Separator e /\ e <> s2g ".") l -> l <> [] ->
  exists c rest, strings.Join l sep = c :: rest /\ c <> filepath.Separator.
Proof.
  intros Hl Hne. destruct l as [|e l]; [congruence|].
  apply Forall_cons_iff in Hl as [(He & Hs & _) _].
  destruct e as [|c e]; [congruence|].
  exists c. destruct l; cbn [strings.Join]; eexists; (split; [reflexivity|]);
    intros ->; apply Hs; left; reflexivity.
Qed.

Lemma clean_render_head r st :
  good_stack r st ->
  exists c rest, filepath.clean_render r st = c :: rest /\ (c =? filepath.Separator) = r.
Proof.
  intros Hg. pose proof Hg as [Hall _]. unfold filepath.clean_render.
  destruct r; [do 2 eexists; split; reflexivity|].
  destruct (rev st) as [|e l] eqn:Hr.
  - cbn. do 2 eexists. split; reflexivity.
  - destruct (Join_nonempty_head (e :: l) [filepath.Separator]) as (c & rest & E & Hc).
    + rewrite <- Hr. apply Forall_rev, Hall.
    + discriminate.
    + rewrite E. cbn [is_empty negb]. exists c, rest. split; [reflexivity|].
      apply Z.eqb_neq, Hc.
Qed.

Lemma fold_split_render r st :
  good_stack r st ->
  fold_left (filepath.clean_elem r) (strings.Split (filepath.clean_render r st) filepath.Separator)
    [] = st.
Proof.
  intros Hg. pose proof Hg as [Hall _].
  transitivity (fold_left (filepath.clean_elem r) (rev st) []); [|apply fold_rev_good, Hg].
  assert (Hrev : Forall (fun e => ~ In filepath.Separator e) (rev st)).
  { apply Forall_rev. eapply Forall_impl; [|exact Hall]. cbn. tauto. }
  assert (Hall' := Forall_rev Hall).
  unfold filepath.clean_render, strings.Split. cbv zeta.
  destruct (rev st) as [|e l] eqn:Hr; [destruct r; reflexivity|].
  assert (Hj : strings.split_from filepath.Separator [] (strings.Join (e :: l) [filepath.Separator])
               = e :: l) by (apply split_join; [discriminate | exact Hrev]).
  unfold gostring in *. rewrite Hr in Hall'.
  destruct (Join_nonempty_head (e :: l) [filepath.Separator] Hall' ltac:(discriminate))
    as (c & rest & Ec & _).
  destruct r.
  - change (strings.split_from filepath.Separator []
              (filepath.Separator :: strings.Join (e :: l) [filepath.Separator]))
      with ([] :: strings.split_from filepath.Separator []
                    (strings.Join (e :: l) [filepath.Separator])).
    rewrite Hj. reflexivity.
  - rewrite Ec. cbn [is_empty]. rewrite <- Ec, Hj. reflexivity.
Qed.

Lemma Clean_good (x : gostring) :
  x <> [] ->
  exists r st, good_stack r st /\
    (forall y, filepath.Clean (x ++ filepath.Separator :: y) =
               filepath.clean_render r (fold_left (filepath.clean_elem r)
                                          (strings.Split y filepath.Separator) st)) /\
    filepath.Clean x = filepath.clean_render r st.
Proof.
  intros Hx. destruct x as [|c x']; [congruence|].
  set (r := c =? filepath.Separator).
  exists r, (fold_left (filepath.clean_elem r) (strings.Split (c :: x') filepath.Separator) []).
  split; [|split].
  - apply good_stack_fold; [apply split_from_no_sep; cbn; tauto | apply good_stack_nil].
  - intros y. cbn [app filepath.Clean]. fold r.
    unfold strings.Split. rewrite app_comm_cons, split_from_app, fold_left_app. reflexivity.
  - reflexivity.
Qed.

Lemma Clean_Clean_app (x y : gostring) :
  x <> [] ->
  filepath.Clean (filepath.Clean x ++ filepath.Separator :: y) =
  filepath.Clean (x ++ filepath.Separator :: y).
Proof.
  intros Hx. destruct (Clean_good x Hx) as (r & st & Hg & Hy & Hc).
  rewrite Hy, Hc.
  destruct (clean_render_head r st Hg) as (c & rest & E & Hr). rewrite E.
  cbn [app filepath.Clean]. rewrite Hr.
  unfold strings.Split. rewrite app_comm_cons, split_from_app, fold_left_app, <- E.
  change (strings.split_from filepath.Separator [] (filepath.clean_render r st))
    with (strings.Split (filepath.clean_render r st) filepath.Separator).
  rewrite fold_split_render by exact Hg. reflexivity.
Qed.

Lemma Clean_nonempty (x : gostring) : filepath.Clean x <> [].
Proof.
  destruct x as [|c x']; [discriminate|].
  destruct (Clean_good (c :: x')) as (r & st & Hg & _ & ->); [discriminate|].
  destruct (clean_render_head r st Hg) as (c' & rest & -> & _). discriminate.
Qed.

Lemma Join_regroup (a b c : gostring) :
  filepath.Join [filepath.Join [a; b]; c] = filepath.Join [a; b; c].
Proof.
  destruct a as [|a0 a'].
  - destruct b as [|b0 b']; [reflexivity|].
    change (filepath.Join [[]; b0 :: b']) with (filepath.Clean (b0 :: b')).
    change (filepath.Join [[]; b0 :: b'; c]) with (filepath.Join [b0 :: b'; c]).
    unfold filepath.Join at 1.
    destruct (filepath.Clean (b0 :: b')) as [|k l] eqn:Ek;
      [exfalso; exact (Clean_nonempty _ Ek)|].
    cbn [is_empty]. rewrite <- Ek.
    change (strings.Join [filepath.Clean (b0 :: b'); c] [filepath.Separator])
      with (filepath.Clean (b0 :: b') ++ filepath.Separator :: c).
    rewrite Clean_Clean_app by discriminate. reflexivity.
  - change (filepath.Join [a0 :: a'; b])
      with (filepath.Clean ((a0 :: a') ++ filepath.Separator :: b)).
    unfold filepath.Join at 1.
    destruct (filepath.Clean ((a0 :: a') ++ filepath.Separator :: b)) as [|k l] eqn:Ek;
      [exfalso; exact (Clean_nonempty _ Ek)|].
    cbn [is_empty]. rewrite <- Ek.
    change (strings.Join [filepath.Clean ((a0 :: a') ++ filepath.Separator :: b); c]
              [filepath.Separator])
      with (filepath.Clean ((a0 :: a') ++ filepath.Separator :: b) ++ filepath.Separator :: c).
    rewrite Clean_Clean_app by discriminate.
    rewrite <- app_assoc. reflexivity.
Qed.

(** X23.  Every path [Execute] hands to terraform was checked first: when
    it runs any command, the module directory it changed to and the
    environment directory exist as directories and the ".tfvars" file of
    [computePaths] (built as [Join(Join(envPath, module), instance)])
    exists and is not a directory: it is the very file [validateCommand]
    checked as [Join(envPath, module, instance)]. *)
Theorem Execute_uses_checked_paths w h (m : terraform.Manager) (cmd : terraform.Command) :
  fst (fst (terraform.Execute w h m cmd)) <> [] ->
  terraform.stat w (terraform.ModulePath (terraform.computePaths m cmd)) = Some true /\
  terraform.stat w (terraform.EnvPath (terraform.computePaths m cmd)) = Some true /\
  terraform.stat w (terraform.VarFile (terraform.computePaths m cmd)) = Some false.
Proof.
  intros Hne. destruct (validateCommand_shape w h m cmd) as (ev0 & e & Ev & Hiff).
  unfold terraform.Execute, terraform.say in Hne.
  rewrite trace_bind_ret, app_nil_l in Hne. cbv beta in Hne.
  rewrite Ev, trace_bind_ret, app_nil_l in Hne.
  destruct e as [e|]; [exfalso; apply Hne; reflexivity|].
  destruct (proj1 Hiff eq_refl) as (_ & _ & H3 & H4 & H5).
  unfold terraform.computePaths. cbn [terraform.ModulePath terraform.EnvPath terraform.VarFile].
  rewrite Join_regroup. auto.
Qed.

Lemma Execute_uses_checked_paths_witness :
  terraform.stat demo_world (terraform.ModulePath
    (terraform.computePaths (terraform.NewManager demo_config) (demo_command (s2g "apply"))))
    = Some true /\
  terraform.stat demo_world (terraform.EnvPath
    (terraform.computePaths (terraform.NewManager demo_config) (demo_command (s2g "apply"))))
    = Some true /\
  terraform.stat demo_world (terraform.VarFile
    (terraform.computePaths (terraform.NewManager demo_config) (demo_command (s2g "apply"))))
    = Some false.
Proof.
  apply (Execute_uses_checked_paths demo_world tf_host (terraform.NewManager demo_config)
           (demo_command (s2g "apply"))).
  vm_compute. discriminate.
Defined.

(** *** The command line of [cli.parseCommand] *)

Lemma fields_from_words (cur s : gostring) :
  forallb (fun c => negb (IsSpace c)) cur = true ->
  Forall (fun f => f <> [] /\ forallb (fun c => negb (IsSpace c)) f = true /\ incl f (cur ++ s))
    (strings.fields_from cur s).
Proof.
  revert cur. induction s as [|c s IH]; intros cur Hcur; cbn [strings.fields_from].
  - destruct cur as [|c0 cur']; cbn [is_empty]; [constructor|].
    constructor; [|constructor]. split; [discriminate|]. split; [exact Hcur|].
    rewrite app_nil_r. apply incl_refl.
  - assert (Hw : forall l, Forall (fun f => f <> [] /\ forallb (fun c => negb (IsSpace c)) f = true
                                            /\ incl f ([] ++ s)) l ->
                 Forall (fun f => f <> [] /\ forallb (fun c => negb (IsSpace c)) f = true
                                            /\ incl f (cur ++ c :: s)) l).
    { intros l Hl. eapply Forall_impl; [|exact Hl]. intros f (H1 & H2 & H3).
      repeat split; auto. intros x Hx. apply in_or_app. right. right. exact (H3 x Hx). }
    destruct (IsSpace c) eqn:Hc.
    + destruct cur as [|c0 cur']; cbn [is_empty].
      * apply Hw, IH. reflexivity.
      * constructor.
        -- split; [discriminate|]. split; [exact Hcur|]. apply incl_appl, incl_refl.
        -- apply Hw, IH. reflexivity.
    + eapply Forall_impl; [|apply IH].
      * intros f (H1 & H2 & H3). repeat split; auto. rewrite <- app_assoc in H3. exact H3.
      * rewrite forallb_app, Hcur. cbn. rewrite Hc. reflexivity.
Qed.

Lemma fields_from_blank (s : gostring) :
  forallb IsSpace s = true -> strings.fields_from [] s = [].
Proof.
  induction s as [|c s IH]; cbn; [reflexivity|].
  intros H. apply andb_prop in H as [-> H]. apply IH, H.
Qed.

Lemma strings_Join_space (l : list gostring) : strings.Join l (s2g " ") = join_space l.
Proof.
  induction l as [|x l IH]; [reflexivity|].
  destruct l as [|y l]; [reflexivity|].
  change (x ++ s2g " " ++ strings.Join (y :: l) (s2g " ") = x ++ [32] ++ join_space (y :: l)).
  rewrite IH. reflexivity.
Qed.

Lemma word_plain (x : gostring) :
  forallb (fun c => negb (IsSpace c) && negb (c =? 34) && negb (c =? 39)) x = true ->
  forallb (fun c => negb (c =? 32) && negb (c =? 34) && negb (c =? 39)) x = true.
Proof.
  induction x as [|c x IH]; cbn [forallb]; [reflexivity|].
  intros H. apply andb_prop in H as [Hc H]. rewrite IH by exact H.
  apply andb_prop in Hc as [Hc H39]. apply andb_prop in Hc as [Hs H34].
  rewrite H34, H39. destruct (Z.eqb_spec c 32); [subst; discriminate Hs|reflexivity].
Qed.

Lemma last_cons2 {A} (a b : A) (l : list A) (d d' : A) :
  last (a :: b :: l) d = last (b :: l) d'.
Proof. revert a b. induction l as [|c l IH]; intros a b; [reflexivity|]. exact (IH b c). Qed.

Lemma join_space_last (w : gostring) (ws : list gostring) :
  exists pre, join_space (w :: ws) = pre ++ last (w :: ws) w.
Proof.
  revert w. induction ws as [|w' ws IH]; intros w.
  - exists []. reflexivity.
  - destruct (IH w') as [pre Hpre]. exists (w ++ [32] ++ pre).
    change (join_space (w :: w' :: ws)) with (w ++ [32] ++ join_space (w' :: ws)).
    rewrite Hpre, <- !app_assoc, (last_cons2 w w' ws w w'). reflexivity.
Qed.

Lemma Forall_last {A} (P : A -> Prop) (w : A) (ws : list A) :
  Forall P (w :: ws) -> P (last (w :: ws) w).
Proof.
  revert w. induction ws as [|w' ws IH]; intros w H; [inversion H; assumption|].
  inversion H; subst. specialize (IH w' H3). rewrite (last_cons2 w w' ws w w'). exact IH.
Qed.

(** Words of non-blank, unquoted runes joined by single spaces are read
    back by the runner's [parseCommand] as the same words. *)
Lemma parseCommand_words (w : gostring) (ws : list gostring) :
  Forall (fun x => x <> [] /\
            forallb (fun c => negb (IsSpace c) && negb (c =? 34) && negb (c =? 39)) x = true)
    (w :: ws) ->
  parseCommand (join_space (w :: ws)) = (w, ws).
Proof.
  intros Hall.
  assert (HP : Forall (fun x => forallb (fun c => negb (c =? 32) && negb (c =? 34)
                                                  && negb (c =? 39)) x = true) (w :: ws)).
  { eapply Forall_impl; [|exact Hall]. intros x [_ Hx]. apply word_plain, Hx. }
  assert (Hne : Forall (fun x => x <> []) (w :: ws)).
  { eapply Forall_impl; [|exact Hall]. intros x [Hx _]. exact Hx. }
  assert (Hw : w <> [] /\
               forallb (fun c => negb (IsSpace c) && negb (c =? 34) && negb (c =? 39)) w = true)
    by (inversion Hall; assumption).
  destruct Hw as [Hw0 Hw1].
  assert (Hhd : exists c rest, join_space (w :: ws) = c :: rest /\ IsSpace c = false).
  { destruct w as [|c w']; [congruence|]. cbn [forallb] in Hw1.
    apply andb_prop in Hw1 as [Hc _]. exists c.
    destruct ws; eexists; (split; [reflexivity|]);
      destruct (IsSpace c); [discriminate|reflexivity|discriminate|reflexivity]. }
  destruct Hhd as (c & rest & Hrest & Hc).
  destruct (Forall_last _ _ _ Hall) as [Hy1 Hy2].
  destruct (join_space_last w ws) as [pre Hpre].
  set (y := last (w :: ws) w) in *.
  rewrite parseCommand_of_fold.
  - change pinit with (mkPstate [] [] false 0).
    assert (E : join_space (w :: ws) = join_space (map (fun x => x) (w :: ws)))
      by (rewrite map_id; reflexivity).
    rewrite E.
    rewrite (fold_join_space (fun x => x)
               (fun x => forallb (fun c => negb (c =? 32) && negb (c =? 34) && negb (c =? 39)) x
                         = true)); [reflexivity | | exact HP | exact Hne].
    intros x ps cur Hx. apply fold_plain, Hx.
  - apply TrimSpace_id.
    + rewrite Hrest. exact Hc.
    + rewrite Hpre, rev_app_distr.
      destruct (rev y) as [|d r] eqn:Ey.
      * exfalso. apply Hy1. apply (f_equal (@rev Z)) in Ey. rewrite rev_involutive in Ey.
        exact Ey.
      * cbn [app]. assert (Hd : In d y) by (apply in_rev; rewrite Ey; left; reflexivity).
        apply (proj1 (forallb_forall _ y) Hy2) in Hd.
        destruct (IsSpace d); [discriminate|reflexivity].
  - rewrite Hrest. discriminate.
Qed.

Lemma with_action_flags_join (w g : gostring) (gs : list gostring) :
  g <> [] ->
  terraform.with_action_flags (s2g "terraform " ++ w) (join_space (g :: gs)) =
  join_space (s2g "terraform" :: w :: g :: gs).
Proof.
  intros Hg. destruct g as [|g0 g']; [congruence|].
  unfold terraform.with_action_flags.
  destruct gs; cbn; reflexivity.
Qed.

Lemma field_unquoted (f a : gostring) :
  incl f a -> existsb (fun c => (c =? 34) || (c =? 39)) a = false ->
  forallb (fun c => negb (IsSpace c)) f = true ->
  forallb (fun c => negb (IsSpace c) && negb (c =? 34) && negb (c =? 39)) f = true.
Proof.
  intros Hi Hq Hs. apply forallb_forall. intros c Hc.
  pose proof (proj1 (forallb_forall _ f) Hs c Hc) as Hsc.
  assert (Hqc : (c =? 34) || (c =? 39) = false).
  { destruct ((c =? 34) || (c =? 39)) eqn:E; [|reflexivity].
    assert (Hex : existsb (fun c => (c =? 34) || (c =? 39)) a = true)
      by (apply existsb_exists; exists c; auto).
    congruence. }
  apply orb_false_iff in Hqc as [-> ->]. rewrite Hsc. reflexivity.
Qed.



(** X25.  An action argument made only of white space parses to an empty
    action with no flags, and [executeTerraformAction] then runs nothing
    and returns "unsupported terraform action: " with nothing after the
    colon. *)
Theorem cli_blank_action (args : list gostring) (cmd : terraform.Command) w h paths ws :
  cli.parseCommand args = inl cmd -> forallb IsSpace (nth 4 args []) = true ->
  terraform.Action cmd = [] /\ terraform.ActionFlags cmd = [] /\
  terraform.executeTerraformAction w h cmd paths ws =
    ([], [], terraform.MRet (Some (s2g "unsupported terraform action: "))).
Proof.
  intros Hp Hb. unfold cli.parseCommand, strings.Fields in Hp.
  destruct (Nat.ltb (List.length args) 5); [discriminate|].
  destruct (Nat.ltb 6 (List.length args)); [discriminate|].
  rewrite (fields_from_blank _ Hb) in Hp. injection Hp as <-.
  split; [reflexivity|]. split; reflexivity.
Qed.

Lemma cli_blank_action_witness :
  terraform.Action (terraform.mkCommand (s2g "app") (s2g "net") (s2g "dev") (s2g "main") [] []
                      (s2g "dev")) = [] /\
  terraform.ActionFlags (terraform.mkCommand (s2g "app") (s2g "net") (s2g "dev") (s2g "main") []
                           [] (s2g "dev")) = [] /\
  terraform.executeTerraformAction demo_world tf_host
    (terraform.mkCommand (s2g "app") (s2g "net") (s2g "dev") (s2g "main") [] [] (s2g "dev"))
    (terraform.computePaths (terraform.NewManager demo_config) (demo_command []))
    (s2g "app.infra.net.dev.main") =
    ([], [], terraform.MRet (Some (s2g "unsupported terraform action: "))).
Proof.
  apply (cli_blank_action [s2g "app"; s2g "net"; s2g "dev"; s2g "main"; [32; 9];
                           s2g "workspace=dev"]).
  - vm_compute. reflexivity.
  - reflexivity.
Defined.

(** X26.  The action argument is split at any run of white space (tabs
    and repeated spaces included) and its words after the first become
    the action flags, joined by single spaces.  So a terraform command
    [with_action_flags("terraform <word>", ActionFlags)] is read back by
    the runner's [parseCommand] as "terraform", the word, then exactly
    those flag words, when the action argument holds no quote character
    and the word is non-empty with no blank or quote. *)
Theorem cli_action_flags_argv (args : list gostring) (cmd : terraform.Command) (w : gostring) :
  cli.parseCommand args = inl cmd ->
  existsb (fun c => (c =? 34) || (c =? 39)) (nth 4 args []) = false ->
  w <> [] -> forallb (fun c => negb (IsSpace c) && negb (c =? 34) && negb (c =? 39)) w = true ->
  parseCommand (terraform.with_action_flags (s2g "terraform " ++ w) (terraform.ActionFlags cmd)) =
    (s2g "terraform", w :: tl (strings.Fields (nth 4 args []))).
Proof.
  intros Hp Hq Hw0 Hw1. unfold cli.parseCommand, strings.Fields in *.
  destruct (Nat.ltb (List.length args) 5); [discriminate|].
  destruct (Nat.ltb 6 (List.length args)); [discriminate|].
  set (a := nth 4 args []) in *.
  pose proof (fields_from_words [] a eq_refl) as Hf.
  assert (Hbase : parseCommand (join_space [s2g "terraform"; w]) = (s2g "terraform", [w])).
  { apply parseCommand_words. constructor; [split; [discriminate|reflexivity]|].
    constructor; [auto|constructor]. }
  destruct (strings.fields_from [] a) as [|f fs]; cbv zeta in Hp; injection Hp as <-;
    cbn [terraform.ActionFlags tl]; [exact Hbase|].
  destruct fs as [|g gs]; [exact Hbase|].
  cbn [Nat.ltb Nat.leb Datatypes.length].
  rewrite strings_Join_space.
  apply Forall_cons_iff in Hf as [_ Hf].
  pose proof (Forall_inv Hf) as (Hg0 & _).
  rewrite (with_action_flags_join w g gs Hg0).
  apply parseCommand_words. constructor; [split; [discriminate|reflexivity]|].
  constructor; [auto|].
  eapply Forall_impl; [|exact Hf]. intros x (Hx0 & Hx1 & Hx2). split; [exact Hx0|].
  apply (field_unquoted x a); assumption.
Qed.

Lemma cli_action_flags_argv_witness :
  parseCommand (terraform.with_action_flags (s2g "terraform " ++ s2g "output")
    (terraform.ActionFlags (terraform.mkCommand (s2g "app") (s2g "net") (s2g "dev") (s2g "main")
                              (s2g "output") (s2g "-json -no-color") []))) =
    (s2g "terraform", s2g "output" :: tl (strings.Fields
       (nth 4 [s2g "app"; s2g "net"; s2g "dev"; s2g "main";
               s2g "output  -json" ++ [9] ++ s2g "-no-color"] []))).
Proof.
  apply (cli_action_flags_argv [s2g "app"; s2g "net"; s2g "dev"; s2g "main";
                                s2g "output  -json" ++ [9] ++ s2g "-no-color"]).
  - vm_compute. reflexivity.
  - reflexivity.
  - discriminate.
  - reflexivity.
Defined.
